(** * Trial-exit dashboard: the webhook function (functions/index.js)

    A shallow embedding of the Cloud Function that ingests subscription
    lifecycle events: the event classifier, the cohort key derivation, the
    app resolver, the cohort counter transaction and the request handler
    that wires them to the document store.

    Conventions of the embedding.
    - JSON scalars of the request body are values of [jsval]; a field that
      is missing reads as [JUndefined].  Numbers are the integer-valued
      ones ([JNum z]); array- and object-valued event fields are outside the
      model.
    - Strings are Rocq strings; [toLowerCase] is the ASCII case mapping, and
      [Date.parse], which is implementation-defined, is a parameter.
    - Cohort counters are mathematical integers: they stay far below 2^53,
      where JavaScript numbers are exact.  The three rates are kept as exact
      rationals (see [round4]); the binary64 evaluation of the same
      expression is [round4_binary64].
    - The document store is two finite maps from document paths to
      documents; its failures (and the validity rules Firestore imposes on
      paths) are not modelled, so the only exceptions the handler's
      [try]/[catch] sees are the TypeErrors of the handler's own code. *)

From Stdlib Require Import ZArith QArith Qround Qabs Lqa String Ascii List Bool Lia.
From Stdlib Require Import DecimalString PrimFloat FloatOps SpecFloat.
From stdpp Require Import gmap strings.
Import ListNotations.

Local Open Scope string_scope.
Local Open Scope Z_scope.

(** ** JavaScript values *)

Inductive jsval : Type :=
| JUndefined
| JNull
| JBool (b : bool)
| JNum (z : Z)
| JStr (s : string).

(** ToBoolean. *)
Definition truthy (v : jsval) : bool :=
  match v with
  | JUndefined | JNull => false
  | JBool b => b
  | JNum z => negb (z =? 0)
  | JStr s => negb (String.eqb s "")
  end.

(** [a || b]. *)
Definition js_or (a b : jsval) : jsval := if truthy a then a else b.

(** [v === "lit"]. *)
Definition is_str (v : jsval) (lit : string) : bool :=
  match v with
  | JStr s => String.eqb s lit
  | _ => false
  end.

(** ToBoolean of a value that is a string or null. *)
Definition truthy_str (o : option string) : bool :=
  match o with
  | Some s => negb (String.eqb s "")
  | None => false
  end.

(** [String(n)] for an integer-valued number. *)
Definition Number_toString (z : Z) : string :=
  NilZero.string_of_int (Z.to_int z).

(** Template-literal interpolation of a scalar. *)
Definition ToString (v : jsval) : string :=
  match v with
  | JUndefined => "undefined"
  | JNull => "null"
  | JBool true => "true"
  | JBool false => "false"
  | JNum z => Number_toString z
  | JStr s => s
  end.

(** [s.padStart(2, "0")]. *)
Definition padStart2 (s : string) : string :=
  match String.length s with
  | O => "00"
  | S O => ("0" ++ s)%string
  | _ => s
  end.

(** ASCII [toLowerCase]. *)
Definition lower_ascii (c : ascii) : ascii :=
  let n := nat_of_ascii c in
  if (Nat.leb 65 n && Nat.leb n 90)%bool then ascii_of_nat (n + 32) else c.

Fixpoint toLowerCase (s : string) : string :=
  match s with
  | EmptyString => EmptyString
  | String c r => String (lower_ascii c) (toLowerCase r)
  end.

(** [s.startsWith(p)] and [s.includes(p)]. *)
Fixpoint startsWith (p s : string) : bool :=
  match p, s with
  | EmptyString, _ => true
  | String a p', String b s' => Ascii.eqb a b && startsWith p' s'
  | String _ _, EmptyString => false
  end.

Fixpoint includes (s p : string) : bool :=
  startsWith p s ||
  match s with
  | EmptyString => false
  | String _ r => includes r p
  end.

(** ** Classification (lines 37-68) *)

Definition classifyFromEvent (eventType cancelReason periodType : jsval)
  : option string :=
  if is_str eventType "INITIAL_PURCHASE" then
    if is_str periodType "TRIAL" then Some "Still in Trial" else Some "Converted"
  else if is_str eventType "RENEWAL" then Some "Converted"
  else if is_str eventType "CANCELLATION" then
    if is_str cancelReason "BILLING_ERROR" || is_str cancelReason "CUSTOMER_SUPPORT"
    then Some "Billing Issue"
    else Some "Cancelled"
  else if is_str eventType "BILLING_ISSUE" then Some "Billing Issue"
  else if is_str eventType "EXPIRATION" then Some "Cancelled"
  else if is_str eventType "UNCANCELLATION" then Some "Still in Trial"
  else None.

(** ** Cohort key derivation (lines 71-78)

    [Date] and its UTC getters follow ECMA-262, section 21.4.1: a time value
    is a number of milliseconds since the epoch, or NaN ([None]). *)

Definition msPerDay : Z := 86400000.

Definition Day (t : Z) : Z := t / msPerDay.

Definition DaysInYear (y : Z) : Z :=
  if negb (y mod 4 =? 0) then 365
  else if negb (y mod 100 =? 0) then 366
  else if negb (y mod 400 =? 0) then 365
  else 366.

Definition DayFromYear (y : Z) : Z :=
  365 * (y - 1970) + (y - 1969) / 4 - (y - 1901) / 100 + (y - 1601) / 400.

Definition TimeFromYear (y : Z) : Z := msPerDay * DayFromYear y.

(** The largest [y] with [TimeFromYear y <= t] (see [YearFromTime_spec]):
    the mean year length gives a guess that is off by at most one. *)
Definition YearFromTime (t : Z) : Z :=
  let y := 1970 + Day t * 400 / 146097 in
  if t <? TimeFromYear y then y - 1
  else if TimeFromYear (y + 1) <=? t then y + 1
  else y.

Definition InLeapYear (t : Z) : Z :=
  if DaysInYear (YearFromTime t) =? 365 then 0 else 1.

Definition DayWithinYear (t : Z) : Z := Day t - DayFromYear (YearFromTime t).

Definition MonthFromTime (t : Z) : Z :=
  let d := DayWithinYear t in
  let l := InLeapYear t in
  if d <? 31 then 0
  else if d <? 59 + l then 1
  else if d <? 90 + l then 2
  else if d <? 120 + l then 3
  else if d <? 151 + l then 4
  else if d <? 181 + l then 5
  else if d <? 212 + l then 6
  else if d <? 243 + l then 7
  else if d <? 273 + l then 8
  else if d <? 304 + l then 9
  else if d <? 334 + l then 10
  else 11.

Definition DateFromTime (t : Z) : Z :=
  let d := DayWithinYear t in
  let l := InLeapYear t in
  match MonthFromTime t with
  | 0 => d + 1
  | 1 => d - 30
  | 2 => d - 58 - l
  | 3 => d - 89 - l
  | 4 => d - 119 - l
  | 5 => d - 150 - l
  | 6 => d - 180 - l
  | 7 => d - 211 - l
  | 8 => d - 242 - l
  | 9 => d - 272 - l
  | 10 => d - 303 - l
  | _ => d - 333 - l
  end.

(** The calendar the two tables above encode: the length of month [m]
    (0 to 11) and the number of days of the year before it, [l] being 1 in a
    leap year (see [DateFromTime_calendar]). *)
Definition days_in_month (l m : Z) : Z :=
  match m with
  | 1 => 28 + l
  | 3 | 5 | 8 | 10 => 30
  | _ => 31
  end.

Fixpoint days_before (l : Z) (months : nat) : Z :=
  match months with
  | O => 0
  | S k => days_before l k + days_in_month l (Z.of_nat k)
  end.

(** TimeClip on an integer-valued number. *)
Definition TimeClip (z : Z) : option Z :=
  if Z.abs z >? 8640000000000000 then None else Some z.

(** [String(n)] for a number that is an integer or NaN. *)
Definition String_of_number (n : option Z) : string :=
  match n with
  | Some z => Number_toString z
  | None => "NaN"
  end.

Section DateKey.

(** [Date.parse] is implementation-defined for most strings: it is a
    parameter of the embedding ([None] is NaN). *)
Variable Date_parse : string -> option Z.

(** The time value of [new Date(v)] for a scalar [v]: a string is parsed,
    anything else goes through ToNumber and TimeClip. *)
Definition Date_new (v : jsval) : option Z :=
  match v with
  | JStr s => Date_parse s
  | JNum z => TimeClip z
  | JBool true => TimeClip 1
  | JBool false | JNull => TimeClip 0
  | JUndefined => None
  end.

Definition getUTCFullYear (d : option Z) : option Z := option_map YearFromTime d.
Definition getUTCMonth (d : option Z) : option Z := option_map MonthFromTime d.
Definition getUTCDate (d : option Z) : option Z := option_map DateFromTime d.

Definition msToDateKey (ms : jsval) : option string :=
  if negb (truthy ms) then None
  else
    let d := Date_new ms in
    let y := getUTCFullYear d in
    let m := padStart2 (String_of_number (option_map (Z.add 1) (getUTCMonth d))) in
    let day := padStart2 (String_of_number (getUTCDate d)) in
    Some (String_of_number y ++ "-" ++ m ++ "-" ++ day)%string.

End DateKey.

(** ** The cohort record and its transaction (lines 224-261) *)

(** A cohort document.  The object synthesised for a cohort that does not
    exist yet has no rate fields ([None]); the transaction sets all three. *)
Record cohort : Type := mkCohort {
  period : string;
  total_trials : Z;
  in_trial : Z;
  converted : Z;
  cancelled : Z;
  billing_issue : Z;
  conversion_rate : option Q;
  cancel_rate : option Q;
  billing_rate : option Q
}.

Definition zero_cohort (trialStartDate : string) : cohort :=
  mkCohort trialStartDate 0 0 0 0 0 None None None.

Definition set_total_trials (v : Z) (d : cohort) : cohort :=
  mkCohort (period d) v (in_trial d) (converted d) (cancelled d)
    (billing_issue d) (conversion_rate d) (cancel_rate d) (billing_rate d).
Definition set_in_trial (v : Z) (d : cohort) : cohort :=
  mkCohort (period d) (total_trials d) v (converted d) (cancelled d)
    (billing_issue d) (conversion_rate d) (cancel_rate d) (billing_rate d).
Definition set_converted (v : Z) (d : cohort) : cohort :=
  mkCohort (period d) (total_trials d) (in_trial d) v (cancelled d)
    (billing_issue d) (conversion_rate d) (cancel_rate d) (billing_rate d).
Definition set_cancelled (v : Z) (d : cohort) : cohort :=
  mkCohort (period d) (total_trials d) (in_trial d) (converted d) v
    (billing_issue d) (conversion_rate d) (cancel_rate d) (billing_rate d).
Definition set_billing_issue (v : Z) (d : cohort) : cohort :=
  mkCohort (period d) (total_trials d) (in_trial d) (converted d) (cancelled d)
    v (conversion_rate d) (cancel_rate d) (billing_rate d).
Definition set_rates (cv ca bi : Q) (d : cohort) : cohort :=
  mkCohort (period d) (total_trials d) (in_trial d) (converted d) (cancelled d)
    (billing_issue d) (Some cv) (Some ca) (Some bi).

(** [prevStatus === "lit"], for a status that is a string or null. *)
Definition status_is (o : option string) (lit : string) : bool :=
  match o with
  | Some s => String.eqb s lit
  | None => false
  end.

(** [Math.round]: the nearest integer, a tie going up. *)
Definition Math_round (x : Q) : Z := Qfloor (x + (1 # 2)).

(** [Math.round((bucket / t) * 10000) / 10000] in exact arithmetic. *)
Definition round4 (bucket t : Z) : Q :=
  inject_Z (Math_round (inject_Z bucket / inject_Z t * inject_Z 10000))
  / inject_Z 10000.

(** The same expression on binary64 numbers, as JavaScript evaluates it:
    the quotient and the product are each rounded to the nearest double
    before [Math.round] sees them.  [Math.round] of NaN or an infinity is
    not an integer ([None]); neither arises from two counters. *)
Definition Number_of_Z (z : Z) : float :=
  SF2Prim (binary_normalize prec emax z 0 false).

Definition Math_round_binary64 (x : float) : option Z :=
  match Prim2SF x with
  | S754_zero _ => Some 0
  | S754_finite s m e =>
      let n := if s then Z.neg m else Z.pos m in
      Some (if 0 <=? e then n * 2 ^ e
            else (2 * n + 2 ^ (- e)) / 2 ^ (- e + 1))
  | S754_infinity _ | S754_nan => None
  end.

Definition round4_binary64 (bucket t : Z) : option float :=
  option_map (fun k => (Number_of_Z k / Number_of_Z 10000)%float)
    (Math_round_binary64
       (Number_of_Z bucket / Number_of_Z t * Number_of_Z 10000)%float).

(** Whether the two evaluations round to the same number of
    ten-thousandths, for one bucket and total, and for every bucket from 0
    to the total. *)
Definition binary64_agrees (b t : Z) : bool :=
  match Math_round_binary64
          (Number_of_Z b / Number_of_Z t * Number_of_Z 10000)%float with
  | Some k => k =? Math_round (inject_Z b / inject_Z t * inject_Z 10000)
  | None => false
  end.

Definition agrees_up_to (t : Z) : bool :=
  forallb (fun i => binary64_agrees (0 + Z.of_nat i) t)
    (seq 0 (Z.to_nat (t + 1))).

(** Line 238-240. *)
Definition count_new_trial (eventType : jsval) (prevStatus : option string)
    (d : cohort) : cohort :=
  if is_str eventType "INITIAL_PURCHASE" && negb (truthy_str prevStatus)
  then set_total_trials (total_trials d + 1) d
  else d.

(** Lines 243-246. *)
Definition decrement_previous (prevStatus : option string) (d : cohort) : cohort :=
  if status_is prevStatus "Still in Trial"
  then set_in_trial (Z.max 0 (in_trial d - 1)) d
  else if status_is prevStatus "Converted"
  then set_converted (Z.max 0 (converted d - 1)) d
  else if status_is prevStatus "Cancelled"
  then set_cancelled (Z.max 0 (cancelled d - 1)) d
  else if status_is prevStatus "Billing Issue"
  then set_billing_issue (Z.max 0 (billing_issue d - 1)) d
  else d.

(** Lines 249-252. *)
Definition increment_new (status : string) (d : cohort) : cohort :=
  if String.eqb status "Still in Trial" then set_in_trial (in_trial d + 1) d
  else if String.eqb status "Converted" then set_converted (converted d + 1) d
  else if String.eqb status "Cancelled" then set_cancelled (cancelled d + 1) d
  else if String.eqb status "Billing Issue"
  then set_billing_issue (billing_issue d + 1) d
  else d.

(** Lines 255-258; [t] is [data.total_trials || 1]. *)
Definition compute_rates (d : cohort) : cohort :=
  let t := if total_trials d =? 0 then 1 else total_trials d in
  set_rates (round4 (converted d) t) (round4 (cancelled d) t)
    (round4 (billing_issue d) t) d.

(** The body of the transaction, from the record read to the record
    written. *)
Definition cohort_tx (eventType : jsval) (prevStatus : option string)
    (status : string) (data : cohort) : cohort :=
  compute_rates
    (increment_new status
       (decrement_previous prevStatus
          (count_new_trial eventType prevStatus data))).

(** One transaction is determined by the event type, the status the user
    record held before and the new classification. *)
Record transition : Type := mkTransition {
  tr_eventType : jsval;
  tr_prevStatus : option string;
  tr_status : string
}.

Definition apply_tx (d : cohort) (x : transition) : cohort :=
  cohort_tx (tr_eventType x) (tr_prevStatus x) (tr_status x) d.

(** The record after a sequence of transactions, and the list of all the
    records written on the way. *)
Definition run (d : cohort) (xs : list transition) : cohort :=
  fold_left apply_tx xs d.

Fixpoint trace (d : cohort) (xs : list transition) : list cohort :=
  match xs with
  | [] => []
  | x :: r => apply_tx d x :: trace (apply_tx d x) r
  end.

Definition bucket_sum (d : cohort) : Z :=
  in_trial d + converted d + cancelled d + billing_issue d.

Definition buckets_nonneg (d : cohort) : Prop :=
  0 <= in_trial d /\ 0 <= converted d /\ 0 <= cancelled d /\ 0 <= billing_issue d.

Definition known_status (s : string) : Prop :=
  s = "Still in Trial" \/ s = "Converted" \/ s = "Cancelled" \/ s = "Billing Issue".

(** The counter a status is counted in. *)
Definition bucket (s : string) (d : cohort) : Z :=
  if String.eqb s "Still in Trial" then in_trial d
  else if String.eqb s "Converted" then converted d
  else if String.eqb s "Cancelled" then cancelled d
  else if String.eqb s "Billing Issue" then billing_issue d
  else 0.

(** The five counters of a record. *)
Definition counters (d : cohort) : Z * Z * Z * Z * Z :=
  (total_trials d, in_trial d, converted d, cancelled d, billing_issue d).

Definition same_counters (a b : cohort) : Prop :=
  total_trials a = total_trials b /\ in_trial a = in_trial b /\
  converted a = converted b /\ cancelled a = cancelled b /\
  billing_issue a = billing_issue b.

(** ** App resolution (lines 11-33) *)

Definition APP_SLUGS : list (string * list string) :=
  [ ("christian-daily-task",
     [ "com.nicholasseither.christiandailytask"; "cdt";
       "christian_daily_task"; "christian-daily-task" ]);
    ("girlwalk", [ "com.tangentapps.girlwalk"; "girlwalk"; "girl_walk" ]);
    ("girltalk", [ "com.tangentapps.girltalk"; "girltalk"; "girl_talk" ]) ].

(** [APP_SLUGS] is an object literal: besides its own three keys, a property
    read finds what it inherits from [Object.prototype], all truthy. *)
Definition Object_prototype_keys : list string :=
  [ "constructor"; "hasOwnProperty"; "isPrototypeOf"; "propertyIsEnumerable";
    "toLocaleString"; "toString"; "valueOf"; "__proto__";
    "__defineGetter__"; "__defineSetter__"; "__lookupGetter__";
    "__lookupSetter__" ].

Definition mem_string (k : string) (l : list string) : bool :=
  existsb (String.eqb k) l.

(** Truthiness of [APP_SLUGS[k]]. *)
Definition APP_SLUGS_has (k : string) : bool :=
  mem_string k (map fst APP_SLUGS) || mem_string k Object_prototype_keys.

(** A computation that may throw; the payload is [err.message] (V8's
    wording). *)
Inductive completion (A : Type) : Type :=
| Normal (a : A)
| Throw (message : string).
Arguments Normal {A} a.
Arguments Throw {A} message.

(** [appSlugHint && APP_SLUGS[appSlugHint]]. *)
Definition hint_known (appSlugHint : option string) : bool :=
  match appSlugHint with
  | Some h => truthy_str appSlugHint && APP_SLUGS_has h
  | None => false
  end.

Definition resolveApp (productId : jsval) (appSlugHint : option string)
  : completion (option string) :=
  if hint_known appSlugHint then Normal appSlugHint
  else
    match js_or productId (JStr "") with
    | JStr p =>
        let pid := toLowerCase p in
        Normal (option_map fst
          (find (fun e => existsb (includes pid) (snd e)) APP_SLUGS))
    | _ => Throw "toLowerCase is not a function"
    end.

(** ** The webhook handler (lines 135-273) *)

(** The fields the handler reads from an event object. *)
Record fields : Type := mkFields {
  f_type : jsval;
  f_app_user_id : jsval;
  f_original_app_user_id : jsval;
  f_product_id : jsval;
  f_period_type : jsval;
  f_cancel_reason : jsval;
  f_purchased_at_ms : jsval;
  f_environment : jsval
}.

(** A request body: [b_event] is [body.event] when that is an object
    ([None] when it is missing or falsy), [b_top] the same fields read from
    the body itself.  Reading these fields off a truthy primitive gives
    undefined every time: such an event is [Some no_fields], such a body has
    [b_event = None] and [b_top = no_fields]. *)
Record body : Type := mkBody {
  b_event : option fields;
  b_top : fields
}.

(** [req_body] is [None] when [req.body] is undefined or null. *)
Record request : Type := mkRequest {
  method : string;
  authorization : option string;
  path : string;
  req_body : option body
}.

(** [res.status(c).send(text)] and [res.status(c).json(object)]. *)
Inductive response : Type :=
| Send (code : Z) (text : string)
| Json (code : Z) (object : list (string * string)).

Definition response_code (r : response) : Z :=
  match r with
  | Send c _ => c
  | Json c _ => c
  end.

(** The [status] member of a JSON response. *)
Definition response_status (r : response) : option string :=
  match r with
  | Send _ _ => None
  | Json _ o => option_map snd (find (fun kv => String.eqb (fst kv) "status") o)
  end.

(** A user document, as the handler writes it (line 207-216). *)
Record user : Type := mkUser {
  status : string;
  product : jsval;
  trial_start_date : option string;
  last_event : jsval;
  updated_at : Z
}.

(** The store: user and cohort documents by document path. *)
Record store : Type := mkStore {
  users : gmap string user;
  cohorts : gmap string cohort
}.

Inductive write : Type :=
| SetUser (ref : string) (doc : user)
| SetCohort (ref : string) (doc : cohort).

(** [req.path.replace(/^\//, "").split("/")[0] || null]. *)
Definition strip_slash (s : string) : string :=
  match s with
  | String c r => if Ascii.eqb c "/" then r else s
  | EmptyString => s
  end.

Fixpoint first_segment (s : string) : string :=
  match s with
  | EmptyString => EmptyString
  | String c r => if Ascii.eqb c "/" then EmptyString else String c (first_segment r)
  end.

Definition pathSlug_of (p : string) : option string :=
  let seg := first_segment (strip_slash p) in
  if String.eqb seg "" then None else Some seg.

(** [a || b] where both are a string or null. *)
Definition or_str (a b : option string) : option string :=
  if truthy_str a then a else b.

Definition skipped (reason : string) : response :=
  Json 200 [("status", "skipped"); ("reason", reason)].

Definition failure (message : string) : response :=
  Json 500 [("status", "error"); ("message", message)].

(** [body.event || body]. *)
Definition event_of (b : body) : fields :=
  match b_event b with
  | Some e => e
  | None => b_top b
  end.

(** Lines 157-158, 162 and 163. *)
Definition appUserId_of (event : fields) : jsval :=
  js_or (js_or (f_app_user_id event) (f_original_app_user_id event)) JNull.

Definition purchasedAtMs_of (event : fields) : jsval :=
  js_or (f_purchased_at_ms event) JNull.

Definition environment_of (event : fields) : jsval :=
  js_or (f_environment event) (JStr "PRODUCTION").

Section Handler.

Variable Date_parse : string -> option Z.

(** [process.env.WEBHOOK_SECRET || ""]. *)
Variable WEBHOOK_SECRET : string.

(** The value [FieldValue.serverTimestamp()] resolves to. *)
Variable now : Z.

(** Lines 144-150: [true] when the request passes. *)
Definition authorized (req : request) : bool :=
  if negb (String.eqb WEBHOOK_SECRET "") then
    let auth := match or_str (authorization req) (Some "") with
                | Some a => a
                | None => ""
                end in
    String.eqb auth ("Bearer " ++ WEBHOOK_SECRET)
  else true.

(** Lines 200-262: the user document is read and written, then the
    cohort document inside its transaction.  [newStatus] is the handler's
    [status]. *)
Definition update_store (eventType appUserId productId : jsval)
    (appSlug newStatus : string) (trialDate : option string) (db : store)
  : store * list write :=
  let userRef := ("apps/" ++ appSlug ++ "/users/" ++ ToString appUserId)%string in
  let userSnap := users db !! userRef in
  let prevStatus := option_map status userSnap in
  let trialStartDate :=
    match userSnap with
    | Some u => or_str (trial_start_date u) trialDate
    | None => trialDate
    end in
  let userDoc := mkUser newStatus productId trialStartDate eventType now in
  let db1 := mkStore (<[userRef := userDoc]> (users db)) (cohorts db) in
  match trialStartDate with
  | Some d =>
      if truthy_str trialStartDate then
        let cohortRef := ("apps/" ++ appSlug ++ "/cohorts/" ++ d)%string in
        let data := match cohorts db1 !! cohortRef with
                    | Some c => c
                    | None => zero_cohort d
                    end in
        let data' := cohort_tx eventType prevStatus newStatus data in
        (mkStore (users db1) (<[cohortRef := data']> (cohorts db1)),
         [SetUser userRef userDoc; SetCohort cohortRef data'])
      else (db1, [SetUser userRef userDoc])
  | None => (db1, [SetUser userRef userDoc])
  end.

(** Lines 153-267, the body of the [try] block, for a body that is
    there. *)
Definition handle_event (req : request) (b : body) (db : store)
  : response * store * list write :=
  let event := event_of b in
  let eventType := f_type event in
  let appUserId := appUserId_of event in
  let productId := js_or (f_product_id event) (JStr "") in
  let periodType := js_or (f_period_type event) (JStr "") in
  let cancelReason := js_or (f_cancel_reason event) (JStr "") in
  let purchasedAtMs := purchasedAtMs_of event in
  let environment := environment_of event in
  if is_str environment "SANDBOX" then (skipped "sandbox", db, [])
  else if negb (truthy appUserId) then
    (Json 400 [("status", "error"); ("reason", "missing app_user_id")], db, [])
  else
    match resolveApp productId (pathSlug_of (path req)) with
    | Throw m => (failure m, db, [])
    | Normal appSlug =>
        match appSlug with
        | Some slug =>
            if negb (truthy_str appSlug) then (skipped "unknown_app", db, [])
            else
              match classifyFromEvent eventType cancelReason periodType with
              | Some newStatus =>
                  if negb (truthy_str (Some newStatus)) then
                    (skipped "unhandled_event_type", db, [])
                  else
                    let trialDate := msToDateKey Date_parse purchasedAtMs in
                    let '(db', ws) :=
                      update_store eventType appUserId productId slug
                        newStatus trialDate db in
                    (Json 200 [("status", "ok"); ("app", slug);
                               ("classification", newStatus)], db', ws)
              | None => (skipped "unhandled_event_type", db, [])
              end
        | None => (skipped "unknown_app", db, [])
        end
    end.

Definition webhook (req : request) (db : store)
  : response * store * list write :=
  if negb (String.eqb (method req) "POST") then
    (Send 405 "Method not allowed", db, [])
  else if negb (authorized req) then (Send 401 "Unauthorized", db, [])
  else
    match req_body req with
    | None => (failure "Cannot read properties of undefined (reading 'event')", db, [])
    | Some b => handle_event req b db
    end.

End Handler.

Definition no_fields : fields :=
  mkFields JUndefined JUndefined JUndefined JUndefined JUndefined JUndefined
    JUndefined JUndefined.

Definition empty_store : store := mkStore ∅ ∅.

(** The same request with the event's [environment] field replaced. *)
Definition set_environment (v : jsval) (e : fields) : fields :=
  mkFields (f_type e) (f_app_user_id e) (f_original_app_user_id e)
    (f_product_id e) (f_period_type e) (f_cancel_reason e)
    (f_purchased_at_ms e) v.

Definition body_with_environment (v : jsval) (b : body) : body :=
  match b_event b with
  | Some e => mkBody (Some (set_environment v e)) (b_top b)
  | None => mkBody None (set_environment v (b_top b))
  end.

Definition with_environment (v : jsval) (req : request) : request :=
  mkRequest (method req) (authorization req) (path req)
    (option_map (body_with_environment v) (req_body req)).

(** No stored trial start date is the empty string: the handler writes a
    date key or null (see [webhook_dated]). *)
Definition dated (db : store) : Prop :=
  forall (ref : string) (u : user),
    users db !! ref = Some u -> trial_start_date u <> Some "".

(** ** The shape of a date key, stated independently of [String] and
       [padStart] *)

Definition digit (n : Z) : ascii := ascii_of_nat (48 + Z.to_nat n).

Definition two_digits (n : Z) : string :=
  String (digit (n / 10)) (String (digit (n mod 10)) EmptyString).

Definition four_digits (n : Z) : string :=
  String (digit (n / 1000)) (String (digit (n / 100 mod 10)) (two_digits (n mod 100))).

(** Year [y], month [m] (1 to 12) and day [d] as [YYYY-MM-DD]. *)
Definition date_string (y m d : Z) : string :=
  (four_digits y ++ "-" ++ two_digits m ++ "-" ++ two_digits d)%string.

Definition is_digit (c : ascii) : bool :=
  let n := nat_of_ascii c in (Nat.leb 48 n && Nat.leb n 57)%bool.

(** Ten characters: four digits, a dash, two digits, a dash, two digits. *)
Definition is_date_key (s : string) : bool :=
  match s with
  | String y1 (String y2 (String y3 (String y4 (String s1
      (String m1 (String m2 (String s2 (String d1 (String d2 EmptyString))))))))) =>
      is_digit y1 && is_digit y2 && is_digit y3 && is_digit y4 &&
      Ascii.eqb s1 "-" && is_digit m1 && is_digit m2 &&
      Ascii.eqb s2 "-" && is_digit d1 && is_digit d2
  | _ => false
  end.

(** ** Predicates on cohort records and transactions *)

(** A transaction that moves a user the cohort has counted: either a first
    [INITIAL_PURCHASE] (no previous status), or a previous status whose
    bucket is not empty. *)
Definition counted (d : cohort) (x : transition) : bool :=
  match tr_prevStatus x with
  | Some s =>
      if truthy_str (tr_prevStatus x) then 1 <=? bucket s d
      else is_str (tr_eventType x) "INITIAL_PURCHASE"
  | None => is_str (tr_eventType x) "INITIAL_PURCHASE"
  end.

Fixpoint all_counted (d : cohort) (xs : list transition) : bool :=
  match xs with
  | [] => true
  | x :: r => counted d x && all_counted (apply_tx d x) r
  end.

(** What a stored rate [r] is to its bucket counter [b] and the total: a
    whole number of ten-thousandths, within half a ten-thousandth of
    [b / max(total, 1)], not negative, and at most 1 when the bucket does
    not exceed the total. *)
Definition rate_of (b total : Z) (r : option Q) : Prop :=
  exists (q : Q) (k : Z),
    r = Some q /\
    (q == inject_Z k / inject_Z 10000)%Q /\
    (Qabs (q - inject_Z b / inject_Z (Z.max total 1)) <= 1 # 20000)%Q /\
    (0 <= q)%Q /\
    (b <= total -> (q <= 1)%Q).

Definition rates_ok (d : cohort) : Prop :=
  rate_of (converted d) (total_trials d) (conversion_rate d) /\
  rate_of (cancelled d) (total_trials d) (cancel_rate d) /\
  rate_of (billing_issue d) (total_trials d) (billing_rate d).

(** JavaScript's reading of "no previous status": [!prevStatus]. *)
Definition no_previous_status (prevStatus : option string) : Prop :=
  prevStatus = None \/ prevStatus = Some "".

(** ** The backfill handler (lines 81-132) *)

Section Backfill.

(** The values of the counter and rate fields of an imported cohort are
    copied, not computed with: only their truthiness matters ([x || 0]).
    They are kept abstract, so that fractional rates are covered. *)
Variable V : Type.
Variable truthyV : V -> bool.

(** The number 0. *)
Variable zeroV : V.

(** One element of [cohorts], as the loop reads it.  An element that is a
    primitive has every field undefined. *)
Record cohort_input : Type := mkCohortInput {
  in_period : jsval;
  in_total_trials : V;
  in_in_trial : V;
  in_converted : V;
  in_cancelled : V;
  in_billing_issue : V;
  in_conversion_rate : V;
  in_cancel_rate : V;
  in_billing_rate : V
}.

(** [req.body] of a backfill request: [bf_cohorts] is [None] when
    [cohorts] is not an array; an element [None] is a null. *)
Record backfill_body : Type := mkBackfillBody {
  bf_slug : jsval;
  bf_cohorts : option (list (option cohort_input))
}.

Record backfill_request : Type := mkBackfillRequest {
  bf_method : string;
  bf_body : option backfill_body
}.

(** The document [batch.set] is given (lines 105-115). *)
Record backfill_doc : Type := mkBackfillDoc {
  bd_period : jsval;
  bd_total_trials : V;
  bd_in_trial : V;
  bd_converted : V;
  bd_cancelled : V;
  bd_billing_issue : V;
  bd_conversion_rate : V;
  bd_cancel_rate : V;
  bd_billing_rate : V
}.

(** [x || 0]. *)
Definition or_zero (x : V) : V := if truthyV x then x else zeroV.

Definition backfill_doc_of (c : cohort_input) : backfill_doc :=
  mkBackfillDoc (in_period c)
    (or_zero (in_total_trials c)) (or_zero (in_in_trial c))
    (or_zero (in_converted c)) (or_zero (in_cancelled c))
    (or_zero (in_billing_issue c)) (or_zero (in_conversion_rate c))
    (or_zero (in_cancel_rate c)) (or_zero (in_billing_rate c)).

(** [batches], the open [batch] and [count] (lines 98-100). *)
Record loop_state : Type := mkLoopState {
  ls_batches : list (list (string * backfill_doc));
  ls_batch : list (string * backfill_doc);
  ls_count : Z
}.

(** One turn of the loop (lines 103-120). *)
Definition backfill_step (slug : jsval) (st : loop_state) (c : cohort_input)
  : loop_state :=
  if negb (truthy (in_period c)) then st
  else
    let ref := ("apps/" ++ ToString slug ++ "/cohorts/"
                ++ ToString (in_period c))%string in
    let batch := (ls_batch st ++ [(ref, backfill_doc_of c)])%list in
    let count := ls_count st + 1 in
    if count mod 450 =? 0
    then mkLoopState (ls_batches st ++ [batch])%list [] count
    else mkLoopState (ls_batches st) batch count.

(** The loop; reading [period] off a null throws. *)
Fixpoint backfill_loop (slug : jsval) (st : loop_state)
    (cs : list (option cohort_input)) : completion loop_state :=
  match cs with
  | [] => Normal st
  | None :: _ => Throw "Cannot read properties of null (reading 'period')"
  | Some c :: r => backfill_loop slug (backfill_step slug st c) r
  end.

(** What the loop keeps true of its state once the writes [acc] are
    made: the closed batches hold 450 writes each, the open one fewer, and
    [count] counts them all. *)
Definition loop_inv (st : loop_state) (acc : list (string * backfill_doc))
  : Prop :=
  (concat (ls_batches st) ++ ls_batch st)%list = acc /\
  Forall (fun b => length b = 450%nat) (ls_batches st) /\
  (length (ls_batch st) < 450)%nat /\
  ls_count st
  = 450 * Z.of_nat (length (ls_batches st)) + Z.of_nat (length (ls_batch st)).

(** The documents an import is to write, in the order of [cohorts]: one
    for each element with a truthy period. *)
Definition backfill_writes (slug : jsval) (cs : list (option cohort_input))
  : list (string * backfill_doc) :=
  flat_map
    (fun o =>
       match o with
       | Some c =>
           if truthy (in_period c)
           then [(("apps/" ++ ToString slug ++ "/cohorts/"
                   ++ ToString (in_period c))%string, backfill_doc_of c)]
           else []
       | None => []
       end) cs.

(** [res.status(c).send(text)] and [res.status(c).json(object)], the
    members of the object being scalars ([count] is a number). *)
Inductive backfill_response : Type :=
| BSend (code : Z) (text : string)
| BJson (code : Z) (object : list (string * jsval)).

Definition backfill_response_code (r : backfill_response) : Z :=
  match r with
  | BSend c _ => c
  | BJson c _ => c
  end.

Definition backfill_error (reason : string) : backfill_response :=
  BJson 400 [("status", JStr "error"); ("reason", JStr reason)].

(** The handler: its response and the batches it commits, in the order of
    [batches]. *)
Definition backfill (req : backfill_request)
  : backfill_response * list (list (string * backfill_doc)) :=
  if negb (String.eqb (bf_method req) "POST") then
    (BSend 405 "Method not allowed", [])
  else
    match bf_body req with
    | None =>
        (BJson 500 [("status", JStr "error");
                    ("message", JStr "Cannot destructure property 'slug' of 'req.body' as it is undefined.")],
         [])
    | Some b =>
        match bf_cohorts b with
        | Some cs =>
            if negb (truthy (bf_slug b)) || (Z.of_nat (length cs) =? 0)
            then (backfill_error "missing slug or cohorts array", [])
            else if negb (APP_SLUGS_has (ToString (bf_slug b)))
            then (backfill_error "unknown app slug", [])
            else
              match backfill_loop (bf_slug b) (mkLoopState [] [] 0) cs with
              | Normal st =>
                  (BJson 200 [("status", JStr "ok"); ("count", JNum (ls_count st))],
                   (ls_batches st ++ [ls_batch st])%list)
              | Throw m =>
                  (BJson 500 [("status", JStr "error"); ("message", JStr m)], [])
              end
        | None => (backfill_error "missing slug or cohorts array", [])
        end
    end.

End Backfill.

(** ** Reading a date key back *)

Definition digit_value (c : ascii) : option Z :=
  if is_digit c then Some (Z.of_nat (nat_of_ascii c) - 48) else None.

(** Year, month and day of a key of the form YYYY-MM-DD. *)
Definition parse_date_key (s : string) : option (Z * Z * Z) :=
  match s with
  | String y1 (String y2 (String y3 (String y4 (String s1
      (String m1 (String m2 (String s2 (String d1 (String d2 EmptyString))))))))) =>
      match digit_value y1, digit_value y2, digit_value y3, digit_value y4,
            digit_value m1, digit_value m2, digit_value d1, digit_value d2 with
      | Some a, Some b, Some c, Some d, Some e, Some f, Some g, Some h =>
          if Ascii.eqb s1 "-" && Ascii.eqb s2 "-"
          then Some (1000 * a + 100 * b + 10 * c + d, 10 * e + f, 10 * g + h)
          else None
      | _, _, _, _, _, _, _, _ => None
      end
  | _ => None
  end.

(** The day number (days since the epoch) of day [d] of month [m] (1 to 12)
    of year [y]. *)
Definition day_of_date (y m d : Z) : Z :=
  DayFromYear y
  + days_before (if DaysInYear y =? 365 then 0 else 1) (Z.to_nat (m - 1))
  + d - 1.

(** [a] occurs in [s]. *)
Definition substring (a s : string) : Prop :=
  exists (l r : string), s = (l ++ a ++ r)%string.

(** The identifiers and the slugs of [APP_SLUGS]. *)
Definition app_slugs : list string := map fst APP_SLUGS.

(** ** Invariants of the store *)

(** A user document with its [updated_at] replaced. *)
Definition at_time (t : Z) (u : user) : user :=
  mkUser (status u) (product u) (trial_start_date u) (last_event u) t.

(** What the handler keeps true of the documents it writes: a user
    document holds one of the four statuses and a trial start date that is
    not the empty string; a cohort document has counters that are not
    negative, rates that belong to them, and sits at a path that ends in its
    period. *)
Definition cohort_ok (c : cohort) : Prop :=
  buckets_nonneg c /\ 0 <= total_trials c.

Definition store_ok (db : store) : Prop :=
  (forall (ref : string) (u : user),
     users db !! ref = Some u ->
     known_status (status u) /\ trial_start_date u <> Some "") /\
  (forall (ref : string) (c : cohort),
     cohorts db !! ref = Some c ->
     cohort_ok c /\ rates_ok c /\
     exists slug, ref = ("apps/" ++ slug ++ "/cohorts/" ++ period c)%string).

(** * Properties *)

(** ** JavaScript values *)

Lemma is_str_true (v : jsval) (lit : string) :
  is_str v lit = true <-> v = JStr lit.
Proof.
  destruct v; simpl; try (split; [discriminate | intros H; discriminate H]).
  rewrite String.eqb_eq. split; [intros -> | intros [= ->]]; reflexivity.
Qed.

Lemma is_str_false (v : jsval) (lit : string) :
  is_str v lit = false <-> v <> JStr lit.
Proof.
  rewrite <- is_str_true. destruct (is_str v lit); split; congruence.
Qed.

(** ** Cohort key derivation *)

Lemma DayFromYear_succ (y : Z) :
  DayFromYear (y + 1) = DayFromYear y + DaysInYear y.
Proof.
  unfold DayFromYear, DaysInYear.
  repeat match goal with
  | |- context [?a =? ?b] => destruct (Z.eqb_spec a b); simpl
  end; Z.div_mod_to_equations; lia.
Qed.

Lemma DaysInYear_range (y : Z) : 365 <= DaysInYear y <= 366.
Proof.
  unfold DaysInYear.
  repeat match goal with
  | |- context [?a =? ?b] => destruct (Z.eqb_spec a b); simpl
  end; lia.
Qed.

Lemma DayFromYear_mono (a b : Z) : a <= b -> DayFromYear a <= DayFromYear b.
Proof.
  intros H. unfold DayFromYear. Z.div_mod_to_equations. lia.
Qed.

(** [YearFromTime t] is the year whose first instant is the last one not
    after [t]. *)
Lemma YearFromTime_spec (t : Z) :
  TimeFromYear (YearFromTime t) <= t < TimeFromYear (YearFromTime t + 1).
Proof.
  unfold YearFromTime.
  set (y := 1970 + Day t * 400 / 146097).
  assert (Hlo : TimeFromYear (y - 1) <= t).
  { unfold TimeFromYear, DayFromYear, y, Day, msPerDay.
    Z.div_mod_to_equations. lia. }
  assert (Hhi : t < TimeFromYear (y + 1 + 1)).
  { unfold TimeFromYear, DayFromYear, y, Day, msPerDay.
    Z.div_mod_to_equations. lia. }
  destruct (Z.ltb_spec t (TimeFromYear y)).
  - replace (y - 1 + 1) with y by lia. lia.
  - destruct (Z.leb_spec (TimeFromYear (y + 1)) t); lia.
Qed.

Lemma YearFromTime_largest (t y : Z) :
  TimeFromYear y <= t -> y <= YearFromTime t.
Proof.
  intros H. destruct (Z.le_gt_cases y (YearFromTime t)) as [|Hgt]; [assumption|].
  pose proof (YearFromTime_spec t) as [_ Hhi].
  assert (DayFromYear (YearFromTime t + 1) <= DayFromYear y)
    by (apply DayFromYear_mono; lia).
  unfold TimeFromYear, msPerDay in *. lia.
Qed.

Lemma DayWithinYear_range (t : Z) :
  0 <= DayWithinYear t < DaysInYear (YearFromTime t).
Proof.
  pose proof (YearFromTime_spec t) as [Hlo Hhi].
  unfold TimeFromYear in Hlo, Hhi. rewrite DayFromYear_succ in Hhi.
  unfold DayWithinYear, Day, msPerDay in *.
  Z.div_mod_to_equations. lia.
Qed.

Lemma MonthFromTime_range (t : Z) : 0 <= MonthFromTime t <= 11.
Proof.
  unfold MonthFromTime.
  repeat match goal with
  | |- context [?a <? ?b] => destruct (Z.ltb_spec a b)
  end; lia.
Qed.

Lemma DateFromTime_range (t : Z) : 1 <= DateFromTime t <= 31.
Proof.
  pose proof (DayWithinYear_range t) as Hd.
  unfold DateFromTime, MonthFromTime, InLeapYear in *.
  destruct (Z.eqb_spec (DaysInYear (YearFromTime t)) 365) as [E|E].
  - rewrite E in Hd.
    repeat match goal with
    | |- context [?a <? ?b] => destruct (Z.ltb_spec a b)
    end; lia.
  - pose proof (DaysInYear_range (YearFromTime t)).
    repeat match goal with
    | |- context [?a <? ?b] => destruct (Z.ltb_spec a b)
    end; lia.
Qed.

(** Month and day of the month are those of the calendar. *)
Lemma DateFromTime_calendar (t : Z) :
  let l := InLeapYear t in
  let m := MonthFromTime t in
  DayWithinYear t = days_before l (Z.to_nat m) + DateFromTime t - 1 /\
  1 <= DateFromTime t <= days_in_month l m.
Proof.
  pose proof (DayWithinYear_range t) as Hd.
  unfold DateFromTime, MonthFromTime, InLeapYear in *.
  destruct (Z.eqb_spec (DaysInYear (YearFromTime t)) 365) as [E|E];
    [rewrite E in Hd | pose proof (DaysInYear_range (YearFromTime t))];
    repeat match goal with
    | |- context [?a <? ?b] => destruct (Z.ltb_spec a b)
    end; cbv zeta iota beta delta [days_in_month];
    match goal with
    | |- context [days_before ?l ?k] =>
        let v := eval vm_compute in (days_before l k) in
        change (days_before l k) with v
    end; lia.
Qed.

(** The instants of the years 1000 to 9999. *)
Lemma YearFromTime_four_digits (t : Z) :
  -30610224000000 <= t < 253402300800000 ->
  1000 <= YearFromTime t <= 9999.
Proof.
  intros [Hlo Hhi]. split.
  - apply YearFromTime_largest.
    change (TimeFromYear 1000) with (-30610224000000). exact Hlo.
  - pose proof (YearFromTime_spec t) as [Hy _].
    destruct (Z.le_gt_cases (YearFromTime t) 9999) as [|Hgt]; [assumption|].
    assert (DayFromYear 10000 <= DayFromYear (YearFromTime t))
      by (apply DayFromYear_mono; lia).
    unfold TimeFromYear, msPerDay in Hy.
    change (DayFromYear 10000) with 2932897 in H. lia.
Qed.

(** A property checked on every integer of [lo, lo + n). *)
Lemma forall_range (P : Z -> bool) (lo n : Z) :
  forallb (fun i => P (lo + Z.of_nat i)) (seq 0 (Z.to_nat n)) = true ->
  forall z, lo <= z < lo + n -> P z = true.
Proof.
  intros H z Hz. rewrite forallb_forall in H.
  specialize (H (Z.to_nat (z - lo))).
  replace (lo + Z.of_nat (Z.to_nat (z - lo))) with z in H by lia.
  apply H, in_seq. lia.
Qed.

Lemma Number_toString_four_digits (y : Z) :
  1000 <= y <= 9999 -> Number_toString y = four_digits y.
Proof.
  intros H. apply String.eqb_eq.
  apply (forall_range
           (fun z => String.eqb (Number_toString z) (four_digits z)) 1000 9000);
    [vm_compute; reflexivity | lia].
Qed.

Lemma padStart2_two_digits (n : Z) :
  0 <= n <= 99 -> padStart2 (Number_toString n) = two_digits n.
Proof.
  intros H. apply String.eqb_eq.
  apply (forall_range
           (fun z => String.eqb (padStart2 (Number_toString z)) (two_digits z))
           0 100);
    [vm_compute; reflexivity | lia].
Qed.

Lemma is_digit_digit (n : Z) : 0 <= n <= 9 -> is_digit (digit n) = true.
Proof.
  intros H.
  apply (forall_range (fun z => is_digit (digit z)) 0 10);
    [vm_compute; reflexivity | lia].
Qed.

Lemma is_date_key_date_string (y m d : Z) :
  0 <= y <= 9999 -> 0 <= m <= 99 -> 0 <= d <= 99 ->
  is_date_key (date_string y m d) = true.
Proof.
  intros Hy Hm Hd. unfold date_string, four_digits, two_digits.
  cbv [String.append is_date_key].
  rewrite !is_digit_digit; [reflexivity | ..];
    Z.div_mod_to_equations; lia.
Qed.

(** The key of an instant of the years 1000 to 9999. *)
Lemma msToDateKey_in_range (Date_parse : string -> option Z) (ms : Z) :
  ms <> 0 -> -30610224000000 <= ms < 253402300800000 ->
  msToDateKey Date_parse (JNum ms)
  = Some (date_string (YearFromTime ms) (MonthFromTime ms + 1) (DateFromTime ms)).
Proof.
  intros Hnz Hr. unfold msToDateKey, truthy, Date_new, TimeClip.
  destruct (Z.eqb_spec ms 0) as [|_]; [contradiction|].
  destruct (Z.gtb_spec (Z.abs ms) 8640000000000000); [lia|].
  cbn [negb getUTCFullYear getUTCMonth getUTCDate option_map String_of_number].
  rewrite Number_toString_four_digits by (apply YearFromTime_four_digits; lia).
  pose proof (MonthFromTime_range ms). pose proof (DateFromTime_range ms).
  rewrite !padStart2_two_digits by lia.
  rewrite (Z.add_comm 1). reflexivity.
Qed.

(** ** The cohort transaction *)

(** Each stage of the transaction, on the five counters. *)

Lemma counters_compute_rates (d : cohort) :
  counters (compute_rates d) = counters d.
Proof. reflexivity. Qed.

Lemma counters_count_new_trial (eventType : jsval) (prevStatus : option string)
    (d : cohort) :
  counters (count_new_trial eventType prevStatus d)
  = (if is_str eventType "INITIAL_PURCHASE" && negb (truthy_str prevStatus)
     then total_trials d + 1 else total_trials d,
     in_trial d, converted d, cancelled d, billing_issue d).
Proof.
  unfold count_new_trial.
  destruct (is_str eventType "INITIAL_PURCHASE" && negb (truthy_str prevStatus));
    reflexivity.
Qed.

Lemma counters_decrement_previous (prevStatus : option string) (d : cohort) :
  counters (decrement_previous prevStatus d)
  = (total_trials d,
     if status_is prevStatus "Still in Trial"
     then Z.max 0 (in_trial d - 1) else in_trial d,
     if status_is prevStatus "Converted"
     then Z.max 0 (converted d - 1) else converted d,
     if status_is prevStatus "Cancelled"
     then Z.max 0 (cancelled d - 1) else cancelled d,
     if status_is prevStatus "Billing Issue"
     then Z.max 0 (billing_issue d - 1) else billing_issue d).
Proof.
  unfold decrement_previous. destruct prevStatus as [s|]; [|reflexivity].
  unfold status_is.
  repeat match goal with
  | |- context [String.eqb s ?b] => destruct (String.eqb_spec s b); subst
  end; reflexivity.
Qed.

Lemma counters_increment_new (status : string) (d : cohort) :
  counters (increment_new status d)
  = (total_trials d,
     if String.eqb status "Still in Trial" then in_trial d + 1 else in_trial d,
     if String.eqb status "Converted" then converted d + 1 else converted d,
     if String.eqb status "Cancelled" then cancelled d + 1 else cancelled d,
     if String.eqb status "Billing Issue"
     then billing_issue d + 1 else billing_issue d).
Proof.
  unfold increment_new.
  repeat match goal with
  | |- context [String.eqb status ?b] =>
      destruct (String.eqb_spec status b); subst
  end; reflexivity.
Qed.

Lemma counters_inv (d : cohort) (t a b c e : Z) :
  counters d = (t, a, b, c, e) ->
  total_trials d = t /\ in_trial d = a /\ converted d = b /\
  cancelled d = c /\ billing_issue d = e.
Proof. unfold counters. intros [= <- <- <- <- <-]. repeat split. Qed.

(** The five counters after a transaction, in terms of those before. *)
Lemma counters_cohort_tx (eventType : jsval) (prevStatus : option string)
    (status : string) (d : cohort) :
  counters (cohort_tx eventType prevStatus status d)
  = (total_trials d
     + (if is_str eventType "INITIAL_PURCHASE" && negb (truthy_str prevStatus)
        then 1 else 0),
     (if status_is prevStatus "Still in Trial"
      then Z.max 0 (in_trial d - 1) else in_trial d)
     + (if String.eqb status "Still in Trial" then 1 else 0),
     (if status_is prevStatus "Converted"
      then Z.max 0 (converted d - 1) else converted d)
     + (if String.eqb status "Converted" then 1 else 0),
     (if status_is prevStatus "Cancelled"
      then Z.max 0 (cancelled d - 1) else cancelled d)
     + (if String.eqb status "Cancelled" then 1 else 0),
     (if status_is prevStatus "Billing Issue"
      then Z.max 0 (billing_issue d - 1) else billing_issue d)
     + (if String.eqb status "Billing Issue" then 1 else 0)).
Proof.
  unfold cohort_tx. rewrite counters_compute_rates, counters_increment_new.
  destruct (counters_inv _ _ _ _ _ _ (counters_decrement_previous prevStatus
    (count_new_trial eventType prevStatus d))) as (-> & -> & -> & -> & ->).
  destruct (counters_inv _ _ _ _ _ _
    (counters_count_new_trial eventType prevStatus d)) as (-> & -> & -> & -> & ->).
  repeat match goal with
  | |- context [if ?c then _ else _] => destruct c
  end; repeat f_equal; lia.
Qed.

Ltac tx_counters et prev st d :=
  destruct (counters_inv _ _ _ _ _ _ (counters_cohort_tx et prev st d))
    as (? & ? & ? & ? & ?).

Ltac eqb_case a b :=
  first
    [ is_var a; destruct (String.eqb_spec a b); subst; try discriminate
    | let v := eval vm_compute in (String.eqb a b) in
      change (String.eqb a b) with v in * ].

Ltac status_cases :=
  unfold status_is, truthy_str, bucket in *;
  repeat match goal with
  | H : context [String.eqb ?a ?b] |- _ => eqb_case a b
  | |- context [String.eqb ?a ?b] => eqb_case a b
  | H : context [is_str ?a ?b] |- _ => destruct (is_str a b)
  | |- context [is_str ?a ?b] => destruct (is_str a b)
  end;
  cbn [negb andb] in *.

Lemma cohort_tx_nonneg (eventType : jsval) (prevStatus : option string)
    (status : string) (d : cohort) :
  buckets_nonneg d -> buckets_nonneg (cohort_tx eventType prevStatus status d).
Proof.
  unfold buckets_nonneg. intros H.
  tx_counters eventType prevStatus status d.
  destruct prevStatus; status_cases; lia.
Qed.

Lemma cohort_tx_total_nonneg (eventType : jsval) (prevStatus : option string)
    (status : string) (d : cohort) :
  0 <= total_trials d ->
  0 <= total_trials (cohort_tx eventType prevStatus status d).
Proof.
  intros H. tx_counters eventType prevStatus status d.
  destruct (is_str eventType "INITIAL_PURCHASE" && negb (truthy_str prevStatus));
    lia.
Qed.

Lemma apply_tx_sum (d : cohort) (x : transition) :
  counted d x = true ->
  bucket_sum d <= total_trials d ->
  bucket_sum (apply_tx d x) <= total_trials (apply_tx d x).
Proof.
  destruct x as [et prev st]. unfold counted, apply_tx, bucket_sum.
  cbn [tr_prevStatus tr_eventType tr_status].
  intros Hc H. tx_counters et prev st d.
  destruct prev; status_cases; try discriminate; lia.
Qed.

Lemma run_sum (xs : list transition) (d : cohort) :
  all_counted d xs = true ->
  bucket_sum d <= total_trials d ->
  bucket_sum (run d xs) <= total_trials (run d xs).
Proof.
  revert d. induction xs as [|x r IH]; intros d Hc H; [exact H|].
  cbn [all_counted] in Hc. apply andb_true_iff in Hc as [Hx Hr].
  cbn [run fold_left]. apply IH; [exact Hr | apply apply_tx_sum; assumption].
Qed.

Lemma trace_nonneg (xs : list transition) (d : cohort) :
  buckets_nonneg d -> Forall buckets_nonneg (trace d xs).
Proof.
  revert d. induction xs as [|x r IH]; intros d H; cbn [trace]; constructor.
  - apply cohort_tx_nonneg, H.
  - apply IH, cohort_tx_nonneg, H.
Qed.

Lemma run_total_mono (xs : list transition) (d : cohort) :
  total_trials d <= total_trials (run d xs).
Proof.
  revert d. induction xs as [|x r IH]; intros d; cbn [run fold_left]; [lia|].
  specialize (IH (apply_tx d x)). unfold run in IH.
  destruct x as [et prev st]. unfold apply_tx in *. cbn [tr_prevStatus tr_eventType tr_status] in *.
  tx_counters et prev st d.
  destruct (is_str et "INITIAL_PURCHASE" && negb (truthy_str prev)); lia.
Qed.

(** ** Rates *)

Lemma Math_round_bounds (x : Q) :
  (inject_Z (Math_round x) <= x + (1 # 2))%Q /\
  (x + (1 # 2) < inject_Z (Math_round x) + 1)%Q.
Proof.
  unfold Math_round. split.
  - apply Qfloor_le.
  - rewrite <- (inject_Z_plus _ 1). apply Qlt_floor.
Qed.

Lemma quotient_nonneg (b t : Z) :
  0 <= b -> 1 <= t -> (0 <= inject_Z b / inject_Z t)%Q.
Proof.
  intros Hb Ht. apply Qle_shift_div_l.
  - change 0%Q with (inject_Z 0). rewrite <- Zlt_Qlt. lia.
  - rewrite Qmult_0_l. change 0%Q with (inject_Z 0). rewrite <- Zle_Qle. lia.
Qed.

Lemma quotient_le_1 (b t : Z) :
  b <= t -> 1 <= t -> (inject_Z b / inject_Z t <= 1)%Q.
Proof.
  intros Hb Ht. apply Qle_shift_div_r.
  - change 0%Q with (inject_Z 0). rewrite <- Zlt_Qlt. lia.
  - rewrite Qmult_1_l. rewrite <- Zle_Qle. lia.
Qed.

Lemma inject_Z_le_half (k n : Z) :
  (inject_Z k <= inject_Z n + (1 # 2))%Q -> k <= n.
Proof.
  unfold Qle, Qplus, inject_Z. cbn [Qnum Qden]. lia.
Qed.

Lemma inject_Z_half_lt (k : Z) :
  ((1 # 2) < inject_Z k + 1)%Q -> 0 <= k.
Proof.
  unfold Qlt, Qplus, inject_Z. cbn [Qnum Qden]. lia.
Qed.

(** The rate stored for a bucket [b] of a record with [total] trials. *)
Lemma round4_rate_of (b total : Z) :
  0 <= b -> 0 <= total ->
  rate_of b total (Some (round4 b (if total =? 0 then 1 else total))).
Proof.
  intros Hb Ht. unfold rate_of, round4.
  replace (if total =? 0 then 1 else total) with (Z.max total 1)
    by (destruct (Z.eqb_spec total 0); lia).
  set (t := Z.max total 1). assert (1 <= t) by lia.
  set (X := (inject_Z b / inject_Z t)%Q).
  pose proof (Math_round_bounds (X * inject_Z 10000)) as [Hlo Hhi].
  pose proof (quotient_nonneg b t Hb ltac:(lia)) as HX. fold X in HX.
  set (k := Math_round (X * inject_Z 10000)) in *.
  assert (Hk : 0 <= k).
  { apply inject_Z_half_lt.
    apply Qle_lt_trans with (X * inject_Z 10000 + (1 # 2))%Q; [|exact Hhi].
    change (inject_Z 10000) with (10000 # 1). lra. }
  assert (HkQ : (0 <= inject_Z k)%Q)
    by (change 0%Q with (inject_Z 0); rewrite <- Zle_Qle; exact Hk).
  exists (inject_Z k / inject_Z 10000)%Q, k.
  split; [reflexivity|]. split; [reflexivity|].
  assert (HX1 : b <= total -> (X <= 1)%Q)
    by (intros Hle; subst X; apply quotient_le_1; lia).
  clearbody k X.
  unfold Qdiv. change (/ inject_Z 10000)%Q with (1 # 10000).
  change (inject_Z 10000) with (10000 # 1) in *.
  split; [|split].
  - apply Qabs_Qle_condition. split; lra.
  - lra.
  - intros Hle.
    specialize (HX1 Hle).
    assert (k <= 10000).
    { apply inject_Z_le_half.
      apply Qle_trans with (X * (10000 # 1) + (1 # 2))%Q; [exact Hlo|].
      change (inject_Z 10000) with (10000 # 1). lra. }
    assert ((inject_Z k <= 10000 # 1)%Q)
      by (change (10000 # 1) with (inject_Z 10000); rewrite <- Zle_Qle; lia).
    lra.
Qed.

Lemma cohort_tx_rates (eventType : jsval) (prevStatus : option string)
    (status : string) (d : cohort) :
  buckets_nonneg d -> 0 <= total_trials d ->
  rates_ok (cohort_tx eventType prevStatus status d).
Proof.
  intros Hb Ht.
  pose proof (cohort_tx_nonneg eventType prevStatus status d Hb) as (_ & ? & ? & ?).
  pose proof (cohort_tx_total_nonneg eventType prevStatus status d Ht).
  unfold cohort_tx in *.
  set (e := increment_new status _) in *.
  change (total_trials (compute_rates e)) with (total_trials e) in *.
  change (converted (compute_rates e)) with (converted e) in *.
  change (cancelled (compute_rates e)) with (cancelled e) in *.
  change (billing_issue (compute_rates e)) with (billing_issue e) in *.
  unfold rates_ok.
  change (total_trials (compute_rates e)) with (total_trials e).
  change (converted (compute_rates e)) with (converted e).
  change (cancelled (compute_rates e)) with (cancelled e).
  change (billing_issue (compute_rates e)) with (billing_issue e).
  repeat split; apply round4_rate_of; assumption.
Qed.

Lemma trace_rates (xs : list transition) (d : cohort) :
  buckets_nonneg d -> 0 <= total_trials d -> Forall rates_ok (trace d xs).
Proof.
  revert d. induction xs as [|x r IH]; intros d Hb Ht; cbn [trace]; constructor.
  - apply cohort_tx_rates; assumption.
  - apply IH; [apply cohort_tx_nonneg, Hb | apply cohort_tx_total_nonneg, Ht].
Qed.

Lemma zero_cohort_nonneg (p : string) : buckets_nonneg (zero_cohort p).
Proof. unfold buckets_nonneg. cbn. lia. Qed.

(** ** The claims about the cohort transaction *)

(** C1, as stated, fails: a first event that is a RENEWAL (the user has no
    previous status) fills the [converted] bucket and leaves [total_trials]
    at 0. *)
Lemma bucket_sum_exceeds_total :
  ~ (forall (p : string) (xs : list transition),
       bucket_sum (run (zero_cohort p) xs)
       <= total_trials (run (zero_cohort p) xs)).
Proof.
  intros H.
  specialize (H "2023-11-14" [mkTransition (JStr "RENEWAL") None "Converted"]).
  vm_compute in H. apply H. reflexivity.
Qed.

(** C1, amended: from the zeroed record, along any sequence of transactions
    each of which either is a first INITIAL_PURCHASE (no previous status) or
    has a previous status whose bucket is at least 1 when it runs, the sum
    in_trial + converted + cancelled + billing_issue is at most
    total_trials. *)
Theorem bucket_sum_le_total_trials (p : string) (xs : list transition) :
  all_counted (zero_cohort p) xs = true ->
  bucket_sum (run (zero_cohort p) xs) <= total_trials (run (zero_cohort p) xs).
Proof.
  intros H. apply run_sum; [exact H|].
  unfold bucket_sum, zero_cohort. cbn. lia.
Qed.

Lemma bucket_sum_le_total_trials_witness :
  let xs := [ mkTransition (JStr "INITIAL_PURCHASE") None "Still in Trial";
              mkTransition (JStr "RENEWAL") (Some "Still in Trial") "Converted" ] in
  all_counted (zero_cohort "2023-11-14") xs = true /\
  bucket_sum (run (zero_cohort "2023-11-14") xs)
  <= total_trials (run (zero_cohort "2023-11-14") xs).
Proof.
  split; [reflexivity|].
  apply (bucket_sum_le_total_trials "2023-11-14"). reflexivity.
Defined.



(** Where the exact and the binary64 evaluation part: 69 conversions out of
    800 trials is 0.08625, a tie at the fourth decimal.  In binary64 the
    product is 862.49999999999989, so [Math.round] returns 862 and the
    stored rate is 0.0862; in exact arithmetic the tie goes up to 863. *)
Example round4_binary64_tie :
  Math_round_binary64 (Number_of_Z 69 / Number_of_Z 800 * Number_of_Z 10000)%float
  = Some 862 /\
  Math_round (inject_Z 69 / inject_Z 800 * inject_Z 10000) = 863 /\
  (round4 69 800 == 863 # 10000)%Q.
Proof. repeat split; vm_compute; reflexivity. Qed.

(** On the counterexample of C3 both evaluations agree. *)
Example round4_binary64_two :
  round4_binary64 2 1 = Some 2%float /\ (round4 2 1 == 2)%Q.
Proof. split; vm_compute; reflexivity. Qed.


(** C4: a transaction whose previous status is its new status, run on a
    record whose bucket for that status is at least 1, changes none of the
    five counters; this is the case of the second of two applications of
    the same event. *)
Theorem repeated_event_keeps_counters (eventType : jsval) (status : string)
    (d : cohort) :
  known_status status ->
  (1 <= bucket status d ->
   same_counters (cohort_tx eventType (Some status) status d) d) /\
  (forall prevStatus : option string,
     buckets_nonneg d ->
     same_counters
       (cohort_tx eventType (Some status) status
          (cohort_tx eventType prevStatus status d))
       (cohort_tx eventType prevStatus status d)).
Proof.
  intros Hk.
  assert (Hstep : forall e : cohort,
    1 <= bucket status e ->
    same_counters (cohort_tx eventType (Some status) status e) e).
  { intros e Hb. unfold same_counters.
    tx_counters eventType (Some status) status e.
    destruct Hk as [-> | [-> | [-> | ->]]]; status_cases; lia. }
  split; [apply Hstep|].
  intros prev Hn. apply Hstep.
  pose proof (cohort_tx_nonneg eventType prev status d Hn) as (? & ? & ? & ?).
  tx_counters eventType prev status d. unfold buckets_nonneg in Hn.
  destruct Hk as [-> | [-> | [-> | ->]]]; destruct prev; status_cases; lia.
Qed.

Lemma repeated_event_keeps_counters_witness :
  let d := run (zero_cohort "2023-11-14")
             [mkTransition (JStr "INITIAL_PURCHASE") None "Still in Trial"] in
  known_status "Still in Trial" /\ 1 <= bucket "Still in Trial" d /\
  same_counters
    (cohort_tx (JStr "INITIAL_PURCHASE") (Some "Still in Trial")
       "Still in Trial" d) d.
Proof.
  intros d.
  assert (Hk : known_status "Still in Trial") by (left; reflexivity).
  assert (Hb : 1 <= bucket "Still in Trial" d) by (vm_compute; discriminate).
  split; [exact Hk|]. split; [exact Hb|].
  exact (proj1 (repeated_event_keeps_counters (JStr "INITIAL_PURCHASE")
                  "Still in Trial" d Hk) Hb).
Defined.

(** C5: from a record whose four bucket counters are not negative (the
    zeroed record is one), every record written along any sequence of
    transactions has all four bucket counters at least 0. *)
Theorem buckets_never_negative (d : cohort) (xs : list transition) :
  buckets_nonneg d -> Forall buckets_nonneg (trace d xs).
Proof. apply trace_nonneg. Qed.

Lemma buckets_never_negative_witness :
  buckets_nonneg (zero_cohort "2023-11-14") /\
  Forall buckets_nonneg
    (trace (zero_cohort "2023-11-14")
       [ mkTransition (JStr "EXPIRATION") (Some "Still in Trial") "Cancelled";
         mkTransition (JStr "RENEWAL") (Some "Cancelled") "Converted" ]).
Proof.
  split; [apply zero_cohort_nonneg|].
  apply (buckets_never_negative (zero_cohort "2023-11-14")).
  apply zero_cohort_nonneg.
Defined.

Lemma truthy_str_false (o : option string) :
  truthy_str o = false <-> no_previous_status o.
Proof.
  unfold no_previous_status. destruct o as [s|]; cbn.
  - destruct (String.eqb_spec s ""); subst; cbn; split; intros H;
      try discriminate; auto.
    destruct H as [H|H]; [discriminate | congruence].
  - split; auto.
Qed.

(** C6: total_trials never decreases along a sequence of transactions; one
    transaction adds exactly 1 to it when the event type is
    INITIAL_PURCHASE and the user has no previous status, and leaves it
    unchanged otherwise.  Of the values the handler passes as previous
    status, only null (no user document) counts as no previous status. *)
Theorem total_trials_counts_first_purchases :
  (forall (d : cohort) (xs : list transition),
     total_trials d <= total_trials (run d xs)) /\
  (forall (eventType : jsval) (prevStatus : option string) (status : string)
          (d : cohort),
     (eventType = JStr "INITIAL_PURCHASE" /\ no_previous_status prevStatus ->
      total_trials (cohort_tx eventType prevStatus status d)
      = total_trials d + 1) /\
     (~ (eventType = JStr "INITIAL_PURCHASE" /\ no_previous_status prevStatus) ->
      total_trials (cohort_tx eventType prevStatus status d)
      = total_trials d)) /\
  (forall s : string, known_status s -> ~ no_previous_status (Some s)).
Proof.
  split; [intros d xs; apply run_total_mono|]. split.
  - intros et prev st d. tx_counters et prev st d.
    destruct (is_str et "INITIAL_PURCHASE") eqn:Et;
      destruct (truthy_str prev) eqn:Ep; cbn [andb negb] in *.
    + split; intros Hc; [|lia].
      destruct Hc as [_ Hn]. apply truthy_str_false in Hn. congruence.
    + split; intros Hc; [lia|]. exfalso. apply Hc. split.
      * apply is_str_true, Et.
      * apply truthy_str_false, Ep.
    + split; intros Hc; [|lia].
      destruct Hc as [He _]. apply is_str_true in He. congruence.
    + split; intros Hc; [|lia].
      destruct Hc as [He _]. apply is_str_true in He. congruence.
  - intros s Hk [H | H]; [discriminate H|].
    destruct Hk as [-> | [-> | [-> | ->]]]; discriminate H.
Qed.

Lemma total_trials_counts_first_purchases_witness :
  total_trials
    (cohort_tx (JStr "INITIAL_PURCHASE") None "Still in Trial"
       (zero_cohort "2023-11-14")) = 1 /\
  total_trials
    (cohort_tx (JStr "RENEWAL") None "Converted" (zero_cohort "2023-11-14")) = 0.
Proof.
  destruct total_trials_counts_first_purchases as (_ & H & _). split.
  - apply (H (JStr "INITIAL_PURCHASE") None "Still in Trial"
             (zero_cohort "2023-11-14")).
    split; [reflexivity | left; reflexivity].
  - apply (H (JStr "RENEWAL") None "Converted" (zero_cohort "2023-11-14")).
    intros [E _]. discriminate E.
Defined.

(** ** The classifier *)

(** C7: for every event type, cancel reason and period type, the classifier
    returns Still in Trial for INITIAL_PURCHASE with period type TRIAL and
    Converted for INITIAL_PURCHASE with any other period type; Converted for
    RENEWAL; Billing Issue for CANCELLATION with cancel reason BILLING_ERROR
    or CUSTOMER_SUPPORT and Cancelled for CANCELLATION with any other cancel
    reason; Billing Issue for BILLING_ISSUE; Cancelled for EXPIRATION; Still
    in Trial for UNCANCELLATION; and null for every other event type. *)
Theorem classifyFromEvent_table (eventType cancelReason periodType : jsval) :
  let r := classifyFromEvent eventType cancelReason periodType in
  (eventType = JStr "INITIAL_PURCHASE" -> periodType = JStr "TRIAL" ->
   r = Some "Still in Trial") /\
  (eventType = JStr "INITIAL_PURCHASE" -> periodType <> JStr "TRIAL" ->
   r = Some "Converted") /\
  (eventType = JStr "RENEWAL" -> r = Some "Converted") /\
  (eventType = JStr "CANCELLATION" ->
   cancelReason = JStr "BILLING_ERROR" \/ cancelReason = JStr "CUSTOMER_SUPPORT" ->
   r = Some "Billing Issue") /\
  (eventType = JStr "CANCELLATION" ->
   cancelReason <> JStr "BILLING_ERROR" ->
   cancelReason <> JStr "CUSTOMER_SUPPORT" ->
   r = Some "Cancelled") /\
  (eventType = JStr "BILLING_ISSUE" -> r = Some "Billing Issue") /\
  (eventType = JStr "EXPIRATION" -> r = Some "Cancelled") /\
  (eventType = JStr "UNCANCELLATION" -> r = Some "Still in Trial") /\
  (eventType <> JStr "INITIAL_PURCHASE" -> eventType <> JStr "RENEWAL" ->
   eventType <> JStr "CANCELLATION" -> eventType <> JStr "BILLING_ISSUE" ->
   eventType <> JStr "EXPIRATION" -> eventType <> JStr "UNCANCELLATION" ->
   r = None).
Proof.
  cbv zeta. unfold classifyFromEvent. repeat split.
  - intros -> ->. reflexivity.
  - intros -> H. apply is_str_false in H. cbn [is_str]. rewrite H. reflexivity.
  - intros ->. reflexivity.
  - intros -> [-> | ->]; reflexivity.
  - intros -> H1 H2. apply is_str_false in H1, H2.
    change (is_str (JStr "CANCELLATION") "INITIAL_PURCHASE") with false.
    change (is_str (JStr "CANCELLATION") "RENEWAL") with false.
    change (is_str (JStr "CANCELLATION") "CANCELLATION") with true.
    cbv iota. rewrite H1, H2. reflexivity.
  - intros ->. reflexivity.
  - intros ->. reflexivity.
  - intros ->. reflexivity.
  - intros H1 H2 H3 H4 H5 H6.
    apply is_str_false in H1, H2, H3, H4, H5, H6.
    rewrite H1, H2, H3, H4, H5, H6. reflexivity.
Qed.

Lemma classifyFromEvent_table_witness :
  classifyFromEvent (JStr "CANCELLATION") (JStr "") (JStr "NORMAL")
  = Some "Cancelled" /\
  classifyFromEvent (JStr "CANCELLATION") (JStr "CUSTOMER_SUPPORT") (JStr "")
  = Some "Billing Issue" /\
  classifyFromEvent (JStr "TRANSFER") (JStr "") (JStr "") = None.
Proof.
  split; [|split].
  - destruct (classifyFromEvent_table (JStr "CANCELLATION") (JStr "")
                (JStr "NORMAL")) as (_ & _ & _ & _ & H & _).
    apply H; [reflexivity | discriminate | discriminate].
  - destruct (classifyFromEvent_table (JStr "CANCELLATION")
                (JStr "CUSTOMER_SUPPORT") (JStr "")) as (_ & _ & _ & H & _).
    apply H; [reflexivity | right; reflexivity].
  - destruct (classifyFromEvent_table (JStr "TRANSFER") (JStr "") (JStr ""))
      as (_ & _ & _ & _ & _ & _ & _ & _ & H).
    apply H; discriminate.
Defined.

(** ** The cohort key *)

(** C9, as stated, fails in its last part: the first millisecond of the year
    10000 is a valid time value, and its key has a five-digit year. *)
Lemma msToDateKey_five_digit_year :
  ~ (forall (Date_parse : string -> option Z) (ms : Z),
       ms <> 0 ->
       exists s, msToDateKey Date_parse (JNum ms) = Some s /\
                 is_date_key s = true).
Proof.
  intros H.
  destruct (H (fun _ => None) 253402300800000 ltac:(lia)) as (s & E & K).
  vm_compute in E. injection E as <-. discriminate K.
Qed.

(** C9, amended: 1700000000000 gives 2023-11-14, 0 and null give null, and
    every other integer number of milliseconds that lies in the years 1000
    to 9999 gives the ten characters YYYY-MM-DD of its UTC year, month and
    day, month and day padded to two digits. *)
Theorem msToDateKey_date_key (Date_parse : string -> option Z) :
  msToDateKey Date_parse (JNum 1700000000000) = Some "2023-11-14" /\
  msToDateKey Date_parse (JNum 0) = None /\
  msToDateKey Date_parse JNull = None /\
  (forall ms : Z,
     ms <> 0 -> -30610224000000 <= ms < 253402300800000 ->
     let y := YearFromTime ms in
     let m := MonthFromTime ms + 1 in
     let d := DateFromTime ms in
     msToDateKey Date_parse (JNum ms) = Some (date_string y m d) /\
     is_date_key (date_string y m d) = true /\
     1000 <= y <= 9999 /\ 1 <= m <= 12 /\ 1 <= d <= 31).
Proof.
  split; [vm_compute; reflexivity|]. split; [reflexivity|].
  split; [reflexivity|].
  intros ms Hnz Hr y m d.
  pose proof (YearFromTime_four_digits ms Hr).
  pose proof (MonthFromTime_range ms). pose proof (DateFromTime_range ms).
  split; [apply msToDateKey_in_range; assumption|].
  split; [apply is_date_key_date_string; subst y m d; lia|].
  subst y m d. lia.
Qed.

Lemma msToDateKey_date_key_witness :
  msToDateKey (fun _ => None) (JNum 951782400000) = Some "2000-02-29".
Proof.
  destruct (msToDateKey_date_key (fun _ => None)) as (_ & _ & _ & H).
  destruct (H 951782400000 ltac:(lia) ltac:(lia)) as (E & _).
  rewrite E. vm_compute. reflexivity.
Defined.

(** Outside the range of [Date] the getters return NaN. *)
Example msToDateKey_invalid_date :
  msToDateKey (fun _ => None) (JNum 8640000000000001) = Some "NaN-NaN-NaN".
Proof. vm_compute. reflexivity. Qed.

Lemma msToDateKey_not_empty (Date_parse : string -> option Z) (ms : jsval) :
  msToDateKey Date_parse ms <> Some "".
Proof.
  unfold msToDateKey. destruct (negb (truthy ms)); [discriminate|].
  intros [= E]. destruct (String_of_number _); discriminate E.
Qed.

(** ** The handler *)

Lemma environment_sandbox (e : fields) :
  is_str (environment_of e) "SANDBOX" = true <-> f_environment e = JStr "SANDBOX".
Proof.
  unfold environment_of, js_or. split.
  - destruct (truthy (f_environment e)) eqn:T.
    + apply is_str_true.
    + discriminate.
  - intros ->. reflexivity.
Qed.

Section HandlerFacts.

Variable Date_parse : string -> option Z.
Variable WEBHOOK_SECRET : string.
Variable now : Z.

Lemma webhook_post (req : request) (b : body) (db : store) :
  method req = "POST" ->
  authorized WEBHOOK_SECRET req = true ->
  req_body req = Some b ->
  webhook Date_parse WEBHOOK_SECRET now req db
  = handle_event Date_parse now req b db.
Proof.
  intros Hm Ha Hb. unfold webhook. rewrite Hm, Ha, Hb. reflexivity.
Qed.

(** A response other than 200 "ok" leaves the store alone. *)
Lemma handle_event_writes (req : request) (b : body) (db : store) :
  let '(r, db', ws) := handle_event Date_parse now req b db in
  ws = [] /\ db' = db /\ response_status r <> Some "ok" \/
  exists slug st,
    r = Json 200 [("status", "ok"); ("app", slug); ("classification", st)] /\
    classifyFromEvent (f_type (event_of b))
      (js_or (f_cancel_reason (event_of b)) (JStr ""))
      (js_or (f_period_type (event_of b)) (JStr "")) = Some st /\
    (db', ws) = update_store now (f_type (event_of b))
                  (appUserId_of (event_of b))
                  (js_or (f_product_id (event_of b)) (JStr "")) slug st
                  (msToDateKey Date_parse (purchasedAtMs_of (event_of b))) db.
Proof.
  assert (Hs : forall reason, response_status (skipped reason) <> Some "ok")
    by (intros reason; cbn; discriminate).
  assert (Hf : forall m, response_status (failure m) <> Some "ok")
    by (intros m; cbn; discriminate).
  unfold handle_event.
  destruct (is_str (environment_of (event_of b)) "SANDBOX"); [left; auto|].
  destruct (negb (truthy (appUserId_of (event_of b))));
    [left; repeat split; cbn; discriminate|].
  destruct (resolveApp _ _) as [[slug|]|m]; [|left; auto|left; auto].
  destruct (negb (truthy_str (Some slug))); [left; auto|].
  destruct (classifyFromEvent _ _ _) as [st|] eqn:Ec; [|left; auto].
  destruct (negb (truthy_str (Some st))); [left; auto|].
  destruct (update_store _ _ _ _ _ _ _ _) as [db' ws] eqn:Eu.
  right. exists slug, st. auto.
Qed.

Lemma webhook_writes (req : request) (db : store) :
  let '(r, db', ws) := webhook Date_parse WEBHOOK_SECRET now req db in
  ws = [] /\ db' = db /\ response_status r <> Some "ok" \/
  exists b slug st,
    req_body req = Some b /\
    r = Json 200 [("status", "ok"); ("app", slug); ("classification", st)] /\
    (db', ws) = update_store now (f_type (event_of b))
                  (appUserId_of (event_of b))
                  (js_or (f_product_id (event_of b)) (JStr "")) slug st
                  (msToDateKey Date_parse (purchasedAtMs_of (event_of b))) db.
Proof.
  unfold webhook.
  destruct (negb (String.eqb (method req) "POST"));
    [left; repeat split; cbn; discriminate|].
  destruct (negb (authorized WEBHOOK_SECRET req));
    [left; repeat split; cbn; discriminate|].
  destruct (req_body req) as [b|]; [|left; repeat split; cbn; discriminate].
  pose proof (handle_event_writes req b db) as H.
  destruct (handle_event Date_parse now req b db) as [[r db'] ws].
  destruct H as [H | (slug & st & Hr & _ & Hu)]; [left; exact H|].
  right. exists b, slug, st. auto.
Qed.

End HandlerFacts.

(** C2, as stated, fails: a POST without a user identifier that is not a
    sandbox event is answered 400 "error", not 200 "skipped". *)
Lemma missing_user_id_not_skipped :
  ~ (forall (Date_parse : string -> option Z) (secret : string) (now : Z)
            (req : request) (b : body) (db : store),
       method req = "POST" ->
       authorized secret req = true ->
       req_body req = Some b ->
       truthy (appUserId_of (event_of b)) = false ->
       is_str (environment_of (event_of b)) "SANDBOX" = false ->
       let '(r, db', ws) := webhook Date_parse secret now req db in
       response_code r = 200 /\ response_status r = Some "skipped" /\
       db' = db /\ ws = []).
Proof.
  intros H.
  specialize (H (fun _ => None) "" 0
    (mkRequest "POST" None "/girlwalk"
       (Some (mkBody
          (Some (mkFields (JStr "INITIAL_PURCHASE") JUndefined JUndefined
                   (JStr "com.tangentapps.girlwalk.pro") (JStr "TRIAL")
                   JUndefined (JNum 1700000000000) JUndefined))
          no_fields)))
    (mkBody
       (Some (mkFields (JStr "INITIAL_PURCHASE") JUndefined JUndefined
                (JStr "com.tangentapps.girlwalk.pro") (JStr "TRIAL")
                JUndefined (JNum 1700000000000) JUndefined))
       no_fields)
    empty_store eq_refl eq_refl eq_refl eq_refl eq_refl).
  cbn in H. destruct H as [H _]. discriminate H.
Qed.

(** C2, amended: an authorized POST with a body whose user identifier is
    absent and whose environment is not the sandbox marker is answered 400
    with status "error" and reason "missing app_user_id", and nothing is
    written to the store. *)
Theorem missing_user_id_rejected (Date_parse : string -> option Z)
    (secret : string) (now : Z) (req : request) (b : body) (db : store) :
  method req = "POST" ->
  authorized secret req = true ->
  req_body req = Some b ->
  truthy (appUserId_of (event_of b)) = false ->
  is_str (environment_of (event_of b)) "SANDBOX" = false ->
  webhook Date_parse secret now req db
  = (Json 400 [("status", "error"); ("reason", "missing app_user_id")], db, []).
Proof.
  intros Hm Ha Hb Hu He. rewrite (webhook_post _ _ _ _ b) by assumption.
  unfold handle_event. rewrite He, Hu. reflexivity.
Qed.

Lemma missing_user_id_rejected_witness :
  let b := mkBody None
             (mkFields (JStr "RENEWAL") JUndefined (JStr "") (JStr "girlwalk")
                JUndefined JUndefined JUndefined (JStr "PRODUCTION")) in
  let req := mkRequest "POST" (Some "Bearer s3cret") "/" (Some b) in
  webhook (fun _ => None) "s3cret" 0 req empty_store
  = (Json 400 [("status", "error"); ("reason", "missing app_user_id")],
     empty_store, []).
Proof.
  intros b req.
  apply (missing_user_id_rejected (fun _ => None) "s3cret" 0 req b empty_store);
    reflexivity.
Defined.

Lemma event_of_with_environment (v : jsval) (b : body) :
  event_of (body_with_environment v b) = set_environment v (event_of b).
Proof.
  unfold body_with_environment, event_of. destruct (b_event b); reflexivity.
Qed.

(** Past the sandbox test, the handler does not look at the environment. *)
Lemma handle_event_environment (Date_parse : string -> option Z) (now : Z)
    (v : jsval) (req : request) (b : body) (db : store) :
  is_str (environment_of (event_of b)) "SANDBOX" = false ->
  is_str (environment_of (set_environment v (event_of b))) "SANDBOX" = false ->
  handle_event Date_parse now (with_environment v req)
    (body_with_environment v b) db
  = handle_event Date_parse now req b db.
Proof.
  intros H1 H2. unfold handle_event.
  rewrite event_of_with_environment, H1, H2. reflexivity.
Qed.

Lemma handle_event_not_sandbox (Date_parse : string -> option Z) (now : Z)
    (req : request) (b : body) (db : store) :
  is_str (environment_of (event_of b)) "SANDBOX" = false ->
  fst (fst (handle_event Date_parse now req b db)) <> skipped "sandbox".
Proof.
  intros H. unfold handle_event. rewrite H.
  destruct (negb (truthy (appUserId_of (event_of b)))); [discriminate|].
  destruct (resolveApp _ _) as [[slug|]|m]; [|discriminate|discriminate].
  destruct (negb (truthy_str (Some slug))); [discriminate|].
  destruct (classifyFromEvent _ _ _) as [st|]; [|discriminate].
  destruct (negb (truthy_str (Some st))); [discriminate|].
  destruct (update_store _ _ _ _ _ _ _ _). discriminate.
Qed.

(** C10: for an authorized POST with a body, the environment field equal to
    the string SANDBOX gives 200 "skipped" (reason "sandbox") and no write;
    any other value, or none, never gives that answer, and the request is
    handled exactly as the same request without an environment field. *)
Theorem sandbox_skip_exact (Date_parse : string -> option Z) (secret : string)
    (now : Z) (req : request) (b : body) (db : store) :
  method req = "POST" ->
  authorized secret req = true ->
  req_body req = Some b ->
  (f_environment (event_of b) = JStr "SANDBOX" ->
   webhook Date_parse secret now req db = (skipped "sandbox", db, [])) /\
  (f_environment (event_of b) <> JStr "SANDBOX" ->
   fst (fst (webhook Date_parse secret now req db)) <> skipped "sandbox" /\
   webhook Date_parse secret now req db
   = webhook Date_parse secret now (with_environment JUndefined req) db).
Proof.
  intros Hm Ha Hb. rewrite (webhook_post _ _ _ _ b) by assumption. split.
  - intros He. apply environment_sandbox in He.
    unfold handle_event. rewrite He. reflexivity.
  - intros He.
    assert (H1 : is_str (environment_of (event_of b)) "SANDBOX" = false).
    { destruct (is_str _ _) eqn:E; [|reflexivity].
      apply environment_sandbox in E. contradiction. }
    split; [apply handle_event_not_sandbox, H1|].
    rewrite (webhook_post _ _ _ _ (body_with_environment JUndefined b)).
    + symmetry. apply handle_event_environment; [exact H1 | reflexivity].
    + exact Hm.
    + exact Ha.
    + unfold with_environment. cbn [req_body]. rewrite Hb. reflexivity.
Qed.

Lemma sandbox_skip_exact_witness :
  let ev env := mkFields (JStr "INITIAL_PURCHASE") (JStr "u1") JUndefined
                  (JStr "com.tangentapps.girlwalk.pro") (JStr "TRIAL")
                  JUndefined (JNum 1700000000000) env in
  let req env := mkRequest "POST" None "/" (Some (mkBody (Some (ev env)) no_fields)) in
  webhook (fun _ => None) "" 0 (req (JStr "SANDBOX")) empty_store
  = (skipped "sandbox", empty_store, []) /\
  webhook (fun _ => None) "" 0 (req (JStr "TEST")) empty_store
  = webhook (fun _ => None) "" 0 (req JUndefined) empty_store.
Proof.
  intros ev req. split.
  - apply (sandbox_skip_exact (fun _ => None) "" 0 (req (JStr "SANDBOX"))
             (mkBody (Some (ev (JStr "SANDBOX"))) no_fields) empty_store);
      reflexivity.
  - apply (sandbox_skip_exact (fun _ => None) "" 0 (req (JStr "TEST"))
             (mkBody (Some (ev (JStr "TEST"))) no_fields) empty_store);
      try reflexivity.
    discriminate.
Defined.

(** The user document [update_store] writes, and where. *)
Lemma update_store_user (now : Z) (eventType appUserId productId : jsval)
    (appSlug newStatus : string) (trialDate : option string)
    (db db' : store) (ws : list write) :
  update_store now eventType appUserId productId appSlug newStatus trialDate db
  = (db', ws) ->
  let ref := ("apps/" ++ appSlug ++ "/users/" ++ ToString appUserId)%string in
  let doc := mkUser newStatus productId
               match users db !! ref with
               | Some u => or_str (trial_start_date u) trialDate
               | None => trialDate
               end eventType now in
  users db' = <[ref := doc]> (users db) /\
  In (SetUser ref doc) ws /\
  (forall r d, In (SetUser r d) ws -> r = ref /\ d = doc).
Proof.
  unfold update_store. cbv zeta. intros H.
  set (ref := ("apps/" ++ appSlug ++ "/users/" ++ ToString appUserId)%string) in *.
  set (tsd := match users db !! ref with
              | Some u => or_str (trial_start_date u) trialDate
              | None => trialDate
              end) in *.
  set (doc := mkUser newStatus productId tsd eventType now) in *.
  assert (Hin : forall r d, In (SetUser r d) [SetUser ref doc] -> r = ref /\ d = doc).
  { intros r d [[= <- <-] | []]. split; reflexivity. }
  clearbody doc. destruct tsd as [d0|].
  - destruct (truthy_str (Some d0)); injection H as <- <-; cbn [users].
    + split; [reflexivity|]. split; [left; reflexivity|].
      intros r d [[= <- <-] | [[=] | []]]. split; reflexivity.
    + split; [reflexivity|]. split; [left; reflexivity | exact Hin].
  - injection H as <- <-. cbn [users].
    split; [reflexivity|]. split; [left; reflexivity | exact Hin].
Qed.

Lemma or_str_not_empty (a b : option string) :
  b <> Some "" -> or_str a b <> Some "".
Proof.
  intros Hb. unfold or_str. destruct a as [s|]; cbn; [|exact Hb].
  destruct (String.eqb_spec s ""); cbn; [exact Hb | congruence].
Qed.

Lemma or_str_set (d : string) (b : option string) :
  d <> "" -> or_str (Some d) b = Some d.
Proof.
  intros Hd. unfold or_str. cbn.
  destruct (String.eqb_spec d ""); [contradiction | reflexivity].
Qed.

Lemma empty_store_dated : dated empty_store.
Proof. intros ref u H. cbn in H. rewrite lookup_empty in H. discriminate H. Qed.

(** The handler keeps the store [dated]. *)
Lemma webhook_dated (Date_parse : string -> option Z) (secret : string)
    (now : Z) (req : request) (db : store) :
  dated db -> dated (snd (fst (webhook Date_parse secret now req db))).
Proof.
  intros Hd.
  pose proof (webhook_writes Date_parse secret now req db) as H.
  destruct (webhook Date_parse secret now req db) as [[r db'] ws]. cbn [fst snd].
  destruct H as [(_ & -> & _) | (b & slug & st & _ & _ & Hu)]; [exact Hd|].
  symmetry in Hu. apply update_store_user in Hu as (Hu & _ & _).
  intros ref u. rewrite Hu. rewrite lookup_insert.
  destruct (decide _) as [_|_]; [|apply Hd].
  intros [= <-]. cbn [trial_start_date].
  destruct (users db !! _) as [u0|];
    [apply or_str_not_empty|]; apply msToDateKey_not_empty.
Qed.

(** C8: every user document the handler writes carries the trial start date
    the stored document already had, if it had one; the key derived from
    the event's purchase time is written only when there is no stored
    document or its trial start date is null.  A request answered 200 "ok"
    writes such a document. *)
Theorem trial_start_date_first_write_wins (Date_parse : string -> option Z)
    (secret : string) (now : Z) (req : request) (db : store) :
  dated db ->
  let '(r, db', ws) := webhook Date_parse secret now req db in
  (response_status r = Some "ok" -> exists ref doc, In (SetUser ref doc) ws) /\
  (forall (ref : string) (doc : user),
     In (SetUser ref doc) ws ->
     users db' !! ref = Some doc /\
     exists b, req_body req = Some b /\
     match users db !! ref with
     | Some u =>
         match trial_start_date u with
         | Some d => trial_start_date doc = Some d
         | None =>
             trial_start_date doc
             = msToDateKey Date_parse (purchasedAtMs_of (event_of b))
         end
     | None =>
         trial_start_date doc
         = msToDateKey Date_parse (purchasedAtMs_of (event_of b))
     end).
Proof.
  intros Hd.
  pose proof (webhook_writes Date_parse secret now req db) as H.
  destruct (webhook Date_parse secret now req db) as [[r db'] ws].
  destruct H as [(-> & -> & Hr) | (b & slug & st & Hb & _ & Hu)].
  - split; [intros E; contradiction | intros ? ? []].
  - symmetry in Hu. apply update_store_user in Hu as (Hu & Hin & Hall).
    split; [eauto|].
    intros ref doc Hw. apply Hall in Hw as [-> ->].
    split; [rewrite Hu; apply lookup_insert_eq|].
    exists b. split; [exact Hb|]. cbn [trial_start_date].
    destruct (users db !! _) as [u|] eqn:Eu; [|reflexivity].
    destruct (trial_start_date u) as [d|] eqn:Ed; [|reflexivity].
    apply or_str_set. intros ->. exact (Hd _ _ Eu Ed).
Qed.

Lemma trial_start_date_first_write_wins_witness :
  let ev ty ms := mkFields (JStr ty) (JStr "u1") JUndefined
                    (JStr "com.tangentapps.girlwalk.pro") (JStr "TRIAL")
                    JUndefined (JNum ms) JUndefined in
  let req ty ms := mkRequest "POST" None "/"
                     (Some (mkBody (Some (ev ty ms)) no_fields)) in
  let db1 := snd (fst (webhook (fun _ => None) "" 0
                         (req "INITIAL_PURCHASE" 1700000000000) empty_store)) in
  let ws := snd (webhook (fun _ => None) "" 1 (req "RENEWAL" 1702000000000) db1) in
  dated db1 /\
  forall ref doc, In (SetUser ref doc) ws ->
                  trial_start_date doc = Some "2023-11-14".
Proof.
  intros ev req db1 ws.
  assert (Hd : dated db1) by (apply webhook_dated, empty_store_dated).
  split; [exact Hd|].
  pose proof (trial_start_date_first_write_wins (fun _ => None) "" 1
                (req "RENEWAL" 1702000000000) db1 Hd) as H.
  subst ws.
  destruct (webhook (fun _ => None) "" 1 (req "RENEWAL" 1702000000000) db1)
    as [[r db2] ws] eqn:E.
  destruct H as [_ H]. intros ref doc Hin.
  destruct (H ref doc Hin) as (_ & b & Hb & Hm).
  assert (Hr : ref = "apps/girlwalk/users/u1").
  { vm_compute in E. injection E as _ _ <-.
    destruct Hin as [[= <- _] | [[=] | []]]. reflexivity. }
  subst ref. vm_compute in Hm. exact Hm.
Defined.

(** ** The scenarios of the specification *)

Example resolveApp_examples :
  resolveApp (JStr "com.tangentapps.girlwalk.pro") None = Normal (Some "girlwalk") /\
  resolveApp (JStr "com.example.other") None = Normal None /\
  resolveApp (JStr "com.example.other") (Some "girltalk") = Normal (Some "girltalk") /\
  resolveApp (JStr "COM.TangentApps.GirlTalk") (Some "nope") = Normal (Some "girltalk") /\
  resolveApp (JStr "") (Some "constructor") = Normal (Some "constructor") /\
  resolveApp (JNum 7) None = Throw "toLowerCase is not a function".
Proof. repeat split. Qed.

(** A first INITIAL_PURCHASE in trial, then a RENEWAL of the same user with
    a later purchase time: the user moves from [in_trial] to [converted] of
    the cohort of the first event. *)
Example trial_then_renewal :
  let ev ty ms := mkFields (JStr ty) (JStr "U") JUndefined
                    (JStr "com.tangentapps.girlwalk.pro") (JStr "TRIAL")
                    JUndefined (JNum ms) JUndefined in
  let req ty ms := mkRequest "POST" None "/"
                     (Some (mkBody (Some (ev ty ms)) no_fields)) in
  let '(r1, db1, _) := webhook (fun _ => None) "" 0
                         (req "INITIAL_PURCHASE" 1700000000000) empty_store in
  let '(r2, db2, _) := webhook (fun _ => None) "" 1
                         (req "RENEWAL" 1702000000000) db1 in
  r1 = Json 200 [("status", "ok"); ("app", "girlwalk");
                 ("classification", "Still in Trial")] /\
  option_map counters (cohorts db1 !! "apps/girlwalk/cohorts/2023-11-14")
  = Some (1, 1, 0, 0, 0) /\
  option_map status (users db2 !! "apps/girlwalk/users/U") = Some "Converted" /\
  option_map counters (cohorts db2 !! "apps/girlwalk/cohorts/2023-11-14")
  = Some (1, 0, 1, 0, 0) /\
  size (cohorts db2) = 1%nat.
Proof. vm_compute. repeat split. Qed.

(** The counterexample of C1 as the handler meets it: the first event seen
    for a user is a RENEWAL. *)
Example first_event_renewal :
  let ev := mkFields (JStr "RENEWAL") (JStr "U") JUndefined
              (JStr "com.tangentapps.girlwalk.pro") (JStr "NORMAL")
              JUndefined (JNum 1700000000000) JUndefined in
  let req := mkRequest "POST" None "/" (Some (mkBody (Some ev) no_fields)) in
  let '(r, db, _) := webhook (fun _ => None) "" 0 req empty_store in
  response_status r = Some "ok" /\
  option_map counters (cohorts db !! "apps/girlwalk/cohorts/2023-11-14")
  = Some (0, 0, 1, 0, 0).
Proof. vm_compute. repeat split. Qed.

(** * Further properties *)

(** ** The classifier *)

Lemma is_known_truthy (s : string) : known_status s -> truthy_str (Some s) = true.
Proof. intros [-> | [-> | [-> | ->]]]; reflexivity. Qed.

Lemma classify_known (et cr pt : jsval) (s : string) :
  classifyFromEvent et cr pt = Some s -> known_status s.
Proof.
  unfold classifyFromEvent, known_status.
  repeat match goal with
  | |- context [if ?c then _ else _] => destruct c
  end; intros [= <-]; auto.
Qed.

(** X1: whatever the arguments, a classification that is not null is one of
    the four statuses the cohort transaction has a bucket for. *)
Theorem classifyFromEvent_known_status (eventType cancelReason periodType : jsval)
    (s : string) :
  classifyFromEvent eventType cancelReason periodType = Some s ->
  known_status s.
Proof. apply classify_known. Qed.

Lemma classifyFromEvent_known_status_witness :
  known_status "Billing Issue".
Proof.
  apply (classifyFromEvent_known_status (JStr "CANCELLATION")
           (JStr "BILLING_ERROR") (JStr "")).
  reflexivity.
Defined.

(** X2: the cancel reason is looked at for a CANCELLATION only, the period
    type for an INITIAL_PURCHASE only. *)
Theorem classifyFromEvent_ignores (eventType : jsval) :
  (eventType <> JStr "CANCELLATION" ->
   forall cancelReason cancelReason' periodType : jsval,
     classifyFromEvent eventType cancelReason periodType
     = classifyFromEvent eventType cancelReason' periodType) /\
  (eventType <> JStr "INITIAL_PURCHASE" ->
   forall cancelReason periodType periodType' : jsval,
     classifyFromEvent eventType cancelReason periodType
     = classifyFromEvent eventType cancelReason periodType').
Proof.
  unfold classifyFromEvent. split; intros H; apply is_str_false in H; intros.
  - rewrite H. reflexivity.
  - rewrite H. reflexivity.
Qed.

Lemma classifyFromEvent_ignores_witness :
  classifyFromEvent (JStr "RENEWAL") (JStr "BILLING_ERROR") (JStr "TRIAL")
  = classifyFromEvent (JStr "RENEWAL") (JStr "") (JStr "TRIAL").
Proof.
  apply (proj1 (classifyFromEvent_ignores (JStr "RENEWAL"))). discriminate.
Defined.

(** ** The cohort key *)

(** X3: a number of milliseconds beyond the range of [Date] (more than
    8.64e15 either way) is not rejected: its key is the string
    NaN-NaN-NaN. *)
Theorem msToDateKey_out_of_range (Date_parse : string -> option Z) (ms : Z) :
  8640000000000000 < Z.abs ms ->
  msToDateKey Date_parse (JNum ms) = Some "NaN-NaN-NaN".
Proof.
  intros H. unfold msToDateKey, truthy, Date_new, TimeClip.
  destruct (Z.eqb_spec ms 0) as [->|_]; [cbn in H; lia|].
  destruct (Z.gtb_spec (Z.abs ms) 8640000000000000); [reflexivity | lia].
Qed.

Lemma msToDateKey_out_of_range_witness :
  msToDateKey (fun _ => None) (JNum (-8640000000000001)) = Some "NaN-NaN-NaN".
Proof.
  apply (msToDateKey_out_of_range (fun _ => None) (-8640000000000001)).
  cbn. lia.
Defined.

Lemma digit_value_digit (n : Z) : 0 <= n <= 9 -> digit_value (digit n) = Some n.
Proof.
  intros H.
  pose proof (forall_range
                (fun z => match digit_value (digit z) with
                          | Some v => v =? z
                          | None => false
                          end) 0 10 ltac:(vm_compute; reflexivity) n
                ltac:(lia)) as E.
  cbv beta in E. destruct (digit_value (digit n)) as [v|]; [|discriminate].
  apply Z.eqb_eq in E. congruence.
Qed.

Lemma parse_date_string (y m d : Z) :
  0 <= y <= 9999 -> 0 <= m <= 99 -> 0 <= d <= 99 ->
  parse_date_key (date_string y m d) = Some (y, m, d).
Proof.
  intros Hy Hm Hd. unfold date_string, four_digits, two_digits.
  cbv [String.append parse_date_key].
  rewrite !digit_value_digit by (Z.div_mod_to_equations; lia).
  change (Ascii.eqb "-" "-") with true. cbn [andb].
  f_equal. f_equal; [f_equal|]; Z.div_mod_to_equations; lia.
Qed.

Lemma day_of_date_fields (t : Z) :
  day_of_date (YearFromTime t) (MonthFromTime t + 1) (DateFromTime t) = Day t.
Proof.
  pose proof (DateFromTime_calendar t) as [H _]. cbv zeta in H.
  unfold day_of_date. replace (MonthFromTime t + 1 - 1) with (MonthFromTime t) by lia.
  unfold InLeapYear, DayWithinYear in H. lia.
Qed.

Lemma date_key_round_trip (Date_parse : string -> option Z) (ms : Z) :
  ms <> 0 -> -30610224000000 <= ms < 253402300800000 ->
  exists (s : string) (y m d : Z),
    msToDateKey Date_parse (JNum ms) = Some s /\
    parse_date_key s = Some (y, m, d) /\
    day_of_date y m d = Day ms /\
    msPerDay * day_of_date y m d <= ms < msPerDay * (day_of_date y m d + 1).
Proof.
  intros Hnz Hr.
  pose proof (YearFromTime_four_digits ms Hr).
  pose proof (MonthFromTime_range ms). pose proof (DateFromTime_range ms).
  exists (date_string (YearFromTime ms) (MonthFromTime ms + 1) (DateFromTime ms)),
    (YearFromTime ms), (MonthFromTime ms + 1), (DateFromTime ms).
  split; [apply msToDateKey_in_range; assumption|].
  split; [apply parse_date_string; lia|].
  rewrite day_of_date_fields. split; [reflexivity|].
  unfold Day, msPerDay. Z.div_mod_to_equations. lia.
Qed.

(** X4: for a time in the years 1000 to 9999, reading the key back gives a
    year, month and day whose day number is the UTC day the time lies in. *)
Theorem msToDateKey_round_trip (Date_parse : string -> option Z) (ms : Z) :
  ms <> 0 -> -30610224000000 <= ms < 253402300800000 ->
  exists (s : string) (y m d : Z),
    msToDateKey Date_parse (JNum ms) = Some s /\
    parse_date_key s = Some (y, m, d) /\
    day_of_date y m d = Day ms /\
    msPerDay * day_of_date y m d <= ms < msPerDay * (day_of_date y m d + 1).
Proof. apply date_key_round_trip. Qed.

Lemma msToDateKey_round_trip_witness :
  exists (s : string) (y m d : Z),
    msToDateKey (fun _ => None) (JNum 1709251199999) = Some s /\
    parse_date_key s = Some (y, m, d) /\
    day_of_date y m d = Day 1709251199999 /\
    msPerDay * day_of_date y m d <= 1709251199999
    < msPerDay * (day_of_date y m d + 1).
Proof.
  apply (msToDateKey_round_trip (fun _ => None) 1709251199999); lia.
Defined.

Lemma YearFromTime_Day (t1 t2 : Z) :
  Day t1 = Day t2 -> YearFromTime t1 = YearFromTime t2.
Proof.
  intros E. unfold YearFromTime. rewrite E.
  set (y := 1970 + Day t2 * 400 / 146097).
  assert (L : forall t D, (t <? msPerDay * D) = (Day t <? D)).
  { intros t D. unfold Day, msPerDay.
    destruct (Z.ltb_spec t (86400000 * D)), (Z.ltb_spec (t / 86400000) D);
      try reflexivity; Z.div_mod_to_equations; lia. }
  assert (G : forall t D, (msPerDay * D <=? t) = (D <=? Day t)).
  { intros t D. unfold Day, msPerDay.
    destruct (Z.leb_spec (86400000 * D) t), (Z.leb_spec D (t / 86400000));
      try reflexivity; Z.div_mod_to_equations; lia. }
  unfold TimeFromYear. rewrite !L, !G, E. reflexivity.
Qed.

(** X5: two times of the years 1000 to 9999 have the same key exactly when
    they lie in the same UTC day. *)
Theorem msToDateKey_same_day (Date_parse : string -> option Z) (t1 t2 : Z) :
  t1 <> 0 -> t2 <> 0 ->
  -30610224000000 <= t1 < 253402300800000 ->
  -30610224000000 <= t2 < 253402300800000 ->
  (msToDateKey Date_parse (JNum t1) = msToDateKey Date_parse (JNum t2)
   <-> Day t1 = Day t2).
Proof.
  intros N1 N2 R1 R2.
  destruct (date_key_round_trip Date_parse t1 N1 R1)
    as (s1 & y1 & m1 & d1 & K1 & P1 & D1 & _).
  destruct (date_key_round_trip Date_parse t2 N2 R2)
    as (s2 & y2 & m2 & d2 & K2 & P2 & D2 & _).
  split.
  - rewrite K1, K2. intros [= ->]. rewrite P1 in P2. injection P2 as <- <- <-.
    congruence.
  - intros E. rewrite !msToDateKey_in_range by assumption.
    pose proof (YearFromTime_Day t1 t2 E) as Ey.
    assert (Ew : DayWithinYear t1 = DayWithinYear t2)
      by (unfold DayWithinYear; rewrite E, Ey; reflexivity).
    assert (El : InLeapYear t1 = InLeapYear t2)
      by (unfold InLeapYear; rewrite Ey; reflexivity).
    assert (Em : MonthFromTime t1 = MonthFromTime t2)
      by (unfold MonthFromTime; rewrite Ew, El; reflexivity).
    assert (Ed : DateFromTime t1 = DateFromTime t2)
      by (unfold DateFromTime; rewrite Ew, El, Em; reflexivity).
    rewrite Ey, Em, Ed. reflexivity.
Qed.

Lemma msToDateKey_same_day_witness :
  msToDateKey (fun _ => None) (JNum 1700000000000)
  = msToDateKey (fun _ => None) (JNum 1700006399999).
Proof.
  apply (msToDateKey_same_day (fun _ => None) 1700000000000 1700006399999);
    try lia.
  reflexivity.
Defined.

(** ** App resolution *)

Lemma startsWith_spec (p s : string) :
  startsWith p s = true <-> exists r, s = (p ++ r)%string.
Proof.
  revert s. induction p as [|a p IH]; intros s; cbn.
  - split; [intros _; exists s; reflexivity | reflexivity].
  - destruct s as [|b s].
    + split; [discriminate | intros [r [=]]].
    + rewrite andb_true_iff, Ascii.eqb_eq, IH. split.
      * intros [-> [r ->]]. exists r. reflexivity.
      * intros [r [= -> ->]]. split; [reflexivity | exists r; reflexivity].
Qed.

Lemma includes_spec (s p : string) :
  includes s p = true <-> substring p s.
Proof.
  unfold substring. induction s as [|c s IH]; cbn [includes].
  - rewrite orb_false_r, startsWith_spec. split.
    + intros [r E]. exists "", r. exact E.
    + intros (l & r & E). destruct l; [exists r; exact E | discriminate E].
  - rewrite orb_true_iff, startsWith_spec, IH. split.
    + intros [[r E] | (l & r & E)].
      * exists "", r. exact E.
      * exists (String c l), r. cbn. rewrite E. reflexivity.
    + intros (l & r & E). destruct l as [|c' l].
      * left. exists r. exact E.
      * right. injection E as _ E. exists l, r. exact E.
Qed.

Lemma lower_ascii_idem (c : ascii) : lower_ascii (lower_ascii c) = lower_ascii c.
Proof.
  destruct c as [[] [] [] [] [] [] [] []]; reflexivity.
Qed.

Lemma toLowerCase_idem (s : string) : toLowerCase (toLowerCase s) = toLowerCase s.
Proof.
  induction s as [|c s IH]; cbn; [reflexivity|].
  rewrite lower_ascii_idem, IH. reflexivity.
Qed.

Lemma mem_string_In (k : string) (l : list string) :
  mem_string k l = true <-> In k l.
Proof.
  unfold mem_string. rewrite existsb_exists. split.
  - intros (x & Hx & E). apply String.eqb_eq in E. subst. exact Hx.
  - intros H. exists k. split; [exact H | apply String.eqb_refl].
Qed.

Lemma hint_known_spec (h : option string) :
  hint_known h = true <->
  exists k, h = Some k /\ (In k app_slugs \/ In k Object_prototype_keys).
Proof.
  unfold hint_known, APP_SLUGS_has. destruct h as [k|].
  - rewrite andb_true_iff, orb_true_iff, !mem_string_In. split.
    + intros [_ H]. exists k. split; [reflexivity | exact H].
    + intros (k' & [= <-] & H). split; [|exact H].
      cbn. destruct (String.eqb_spec k ""); [|reflexivity]. subst.
      destruct H as [H | H]; cbn in H; intuition discriminate.
  - split; [discriminate | intros (k & [=] & _)].
Qed.

(** X6: a routing hint that names an application wins over the product
    identifier, whatever that is, and so does a hint that names a member
    [APP_SLUGS] inherits from [Object.prototype] (the table is a plain
    object): such a name is returned as the application. *)
Theorem resolveApp_hint (productId : jsval) (h : string) :
  In h app_slugs \/ In h Object_prototype_keys ->
  resolveApp productId (Some h) = Normal (Some h).
Proof.
  intros H. unfold resolveApp.
  replace (hint_known (Some h)) with true; [reflexivity|].
  symmetry. apply hint_known_spec. exists h. auto.
Qed.

Lemma resolveApp_hint_witness :
  resolveApp (JNum 7) (Some "girltalk") = Normal (Some "girltalk") /\
  resolveApp (JStr "com.tangentapps.girlwalk") (Some "constructor")
  = Normal (Some "constructor").
Proof.
  split.
  - apply (resolveApp_hint (JNum 7) "girltalk"). left. cbn. auto.
  - apply (resolveApp_hint (JStr "com.tangentapps.girlwalk") "constructor").
    right. cbn. auto.
Defined.

Lemma find_app (pid : string) (s : string) :
  option_map fst (find (fun e => existsb (includes pid) (snd e)) APP_SLUGS)
  = Some s ->
  exists ids id, In (s, ids) APP_SLUGS /\ In id ids /\ substring id pid.
Proof.
  destruct (find _ APP_SLUGS) as [[s' ids]|] eqn:F; [|discriminate].
  intros [= <-]. apply find_some in F as [Hin Hex]. cbn [snd] in Hex.
  apply existsb_exists in Hex as (id & Hid & Hinc).
  exists ids, id. split; [exact Hin|]. split; [exact Hid|].
  apply includes_spec, Hinc.
Qed.





(** X9: [resolveApp] throws exactly when the hint is not usable and the
    product identifier is a truthy value that is not a string (it has no
    [toLowerCase]). *)
Theorem resolveApp_throws (productId : jsval) (h : option string) :
  (exists m, resolveApp productId h = Throw m) <->
  hint_known h = false /\ truthy productId = true /\
  forall p, productId <> JStr p.
Proof.
  unfold resolveApp, js_or. split.
  - intros [m E]. destruct (hint_known h); [discriminate|].
    split; [reflexivity|].
    destruct (truthy productId) eqn:T; [|discriminate].
    split; [reflexivity|]. intros p ->. discriminate E.
  - intros (-> & -> & H). destruct productId; eauto. elim (H s). reflexivity.
Qed.


(** ** The routing hint *)

Lemma first_segment_app (seg rest : string) :
  ~ substring "/" seg ->
  first_segment (seg ++ String "/" rest) = seg /\ first_segment seg = seg.
Proof.
  induction seg as [|c seg IH]; intros H.
  - split; reflexivity.
  - change (String c seg ++ String "/" rest)%string
      with (String c (seg ++ String "/" rest)).
    cbn [first_segment].
    destruct (Ascii.eqb_spec c "/") as [->|_].
    + exfalso. apply H. exists "", seg. reflexivity.
    + destruct IH as [E1 E2].
      * intros (l & r & E). apply H. exists (String c l), r.
        change (String c l ++ "/" ++ r)%string with (String c (l ++ "/" ++ r)).
        rewrite E. reflexivity.
      * rewrite E1, E2. split; reflexivity.
Qed.

(** X11: the hint is the first segment of the path: a path that is a
    slash, a non-empty name without a slash, and then nothing or a slash
    and more, gives that name; the empty path and the paths that begin with
    one or two slashes and no name give null. *)
Theorem pathSlug_of_first_segment (seg rest : string) :
  seg <> "" -> ~ substring "/" seg ->
  pathSlug_of ("/" ++ seg) = Some seg /\
  pathSlug_of ("/" ++ seg ++ "/" ++ rest) = Some seg /\
  pathSlug_of "" = None /\ pathSlug_of "/" = None /\
  pathSlug_of ("//" ++ rest) = None.
Proof.
  intros Hne Hns. destruct (first_segment_app seg rest Hns) as [E1 E2].
  assert (S : forall x, pathSlug_of (String "/" x)
                        = if String.eqb (first_segment x) ""
                          then None else Some (first_segment x))
    by reflexivity.
  change ("/" ++ seg ++ "/" ++ rest)%string
    with (String "/" (seg ++ String "/" rest)).
  change ("/" ++ seg)%string with (String "/" seg).
  rewrite !S, E1, E2.
  destruct (String.eqb_spec seg ""); [contradiction|].
  repeat split.
Qed.

Lemma pathSlug_of_first_segment_witness :
  pathSlug_of "/girlwalk/extra" = Some "girlwalk".
Proof.
  apply (pathSlug_of_first_segment "girlwalk" "extra"); [discriminate|].
  intros (l & r & E).
  assert (H : includes "girlwalk" "/" = true) by (apply includes_spec; exists l, r; exact E).
  discriminate H.
Defined.

(** ** The cohort transaction, further *)

(** X12: a transaction from one known status to a different one, the bucket
    of the previous status holding at least 1, moves exactly one unit from
    that bucket to the bucket of the new status: the other two buckets,
    the sum of the four and total_trials stay as they were. *)
Theorem cohort_tx_moves_one (eventType : jsval) (prev status : string)
    (d : cohort) :
  known_status prev -> known_status status -> prev <> status ->
  1 <= bucket prev d ->
  let d' := cohort_tx eventType (Some prev) status d in
  bucket prev d' = bucket prev d - 1 /\
  bucket status d' = bucket status d + 1 /\
  (forall s, known_status s -> s <> prev -> s <> status ->
             bucket s d' = bucket s d) /\
  bucket_sum d' = bucket_sum d /\
  total_trials d' = total_trials d.
Proof.
  intros Hp Hs Hne Hb d'. subst d'.
  tx_counters eventType (Some prev) status d.
  assert (Hother : forall s, known_status s -> s <> prev -> s <> status ->
            bucket s (cohort_tx eventType (Some prev) status d) = bucket s d).
  { intros s Hk Hn1 Hn2.
    destruct Hp as [-> | [-> | [-> | ->]]];
      destruct Hs as [-> | [-> | [-> | ->]]]; try contradiction;
      destruct Hk as [-> | [-> | [-> | ->]]]; try contradiction;
      status_cases; lia. }
  split; [|split; [|split; [exact Hother|]]];
    unfold bucket_sum in *;
    destruct Hp as [-> | [-> | [-> | ->]]];
    destruct Hs as [-> | [-> | [-> | ->]]]; try contradiction;
    status_cases; lia.
Qed.

Lemma cohort_tx_moves_one_witness :
  let d := cohort_tx (JStr "INITIAL_PURCHASE") None "Still in Trial"
             (zero_cohort "2023-11-14") in
  let d' := cohort_tx (JStr "EXPIRATION") (Some "Still in Trial") "Cancelled" d in
  bucket "Still in Trial" d' = bucket "Still in Trial" d - 1 /\
  bucket "Cancelled" d' = bucket "Cancelled" d + 1 /\
  bucket_sum d' = bucket_sum d.
Proof.
  intros d.
  assert (Hp : known_status "Still in Trial") by (left; reflexivity).
  assert (Hs : known_status "Cancelled") by (right; right; left; reflexivity).
  assert (Hb : 1 <= bucket "Still in Trial" d) by (vm_compute; discriminate).
  destruct (cohort_tx_moves_one (JStr "EXPIRATION") "Still in Trial"
              "Cancelled" d Hp Hs ltac:(discriminate) Hb)
    as (H1 & H2 & _ & H3 & _).
  intros d'. auto.
Defined.

(** X13: with non-negative buckets and a new status that is one of the
    four, a transaction never lowers the sum of the buckets and raises it by
    at most 1; it raises it by exactly 1 when there is no previous status,
    and also when the bucket of a known previous status is empty (the
    clamped decrement takes nothing out). *)
Theorem cohort_tx_sum_step (eventType : jsval) (prevStatus : option string)
    (status : string) (d : cohort) :
  buckets_nonneg d -> known_status status ->
  let d' := cohort_tx eventType prevStatus status d in
  bucket_sum d <= bucket_sum d' <= bucket_sum d + 1 /\
  (prevStatus = None -> bucket_sum d' = bucket_sum d + 1) /\
  (forall s, prevStatus = Some s -> known_status s -> bucket s d = 0 ->
             bucket_sum d' = bucket_sum d + 1).
Proof.
  intros Hn Hs d'. subst d'. unfold buckets_nonneg in Hn.
  tx_counters eventType prevStatus status d. unfold bucket_sum.
  split; [|split].
  - destruct Hs as [-> | [-> | [-> | ->]]]; destruct prevStatus;
      status_cases; lia.
  - intros ->. destruct Hs as [-> | [-> | [-> | ->]]]; status_cases; lia.
  - intros s -> Hk Hz.
    destruct Hs as [-> | [-> | [-> | ->]]];
      destruct Hk as [-> | [-> | [-> | ->]]]; status_cases; lia.
Qed.

Lemma cohort_tx_sum_step_witness :
  let d' := cohort_tx (JStr "RENEWAL") (Some "Still in Trial") "Converted"
              (zero_cohort "2023-11-14") in
  bucket_sum d' = bucket_sum (zero_cohort "2023-11-14") + 1.
Proof.
  intros d'.
  destruct (cohort_tx_sum_step (JStr "RENEWAL") (Some "Still in Trial")
              "Converted" (zero_cohort "2023-11-14")
              (zero_cohort_nonneg _) ltac:(right; left; reflexivity))
    as (_ & _ & H).
  apply (H "Still in Trial"); [reflexivity | left; reflexivity | reflexivity].
Defined.

Lemma cohort_eq (a b : cohort) :
  period a = period b -> counters a = counters b ->
  conversion_rate a = conversion_rate b -> cancel_rate a = cancel_rate b ->
  billing_rate a = billing_rate b -> a = b.
Proof.
  destruct a, b. unfold counters. cbn. intros -> [= -> -> -> -> ->] -> -> ->.
  reflexivity.
Qed.

Lemma counters_eq (a b : cohort) :
  counters a = counters b <-> same_counters a b.
Proof.
  unfold counters, same_counters. split.
  - intros [= -> -> -> -> ->]. repeat split.
  - intros (-> & -> & -> & -> & ->). reflexivity.
Qed.

Lemma cohort_tx_period (eventType : jsval) (prevStatus : option string)
    (status : string) (d : cohort) :
  period (cohort_tx eventType prevStatus status d) = period d.
Proof.
  unfold cohort_tx, compute_rates, increment_new, decrement_previous,
    count_new_trial.
  repeat match goal with
  | |- context [if ?c then _ else _] => destruct c
  end; reflexivity.
Qed.

(** The rates a transaction stores are a function of the counters it
    stores. *)
Lemma cohort_tx_rates_of_counters (eventType : jsval)
    (prevStatus : option string) (status : string) (d : cohort) :
  conversion_rate (cohort_tx eventType prevStatus status d)
  = Some (round4 (converted (cohort_tx eventType prevStatus status d))
            (if total_trials (cohort_tx eventType prevStatus status d) =? 0
             then 1
             else total_trials (cohort_tx eventType prevStatus status d))) /\
  cancel_rate (cohort_tx eventType prevStatus status d)
  = Some (round4 (cancelled (cohort_tx eventType prevStatus status d))
            (if total_trials (cohort_tx eventType prevStatus status d) =? 0
             then 1
             else total_trials (cohort_tx eventType prevStatus status d))) /\
  billing_rate (cohort_tx eventType prevStatus status d)
  = Some (round4 (billing_issue (cohort_tx eventType prevStatus status d))
            (if total_trials (cohort_tx eventType prevStatus status d) =? 0
             then 1
             else total_trials (cohort_tx eventType prevStatus status d))).
Proof. repeat split. Qed.

Lemma cohort_tx_ext (eventType : jsval) (prevStatus : option string)
    (status : string) (a b : cohort) :
  period a = period b -> counters a = counters b ->
  cohort_tx eventType prevStatus status a
  = cohort_tx eventType prevStatus status b.
Proof.
  intros Hp Hc.
  assert (Hc' : counters (cohort_tx eventType prevStatus status a)
                = counters (cohort_tx eventType prevStatus status b)).
  { rewrite !counters_cohort_tx.
    apply counters_inv in Hc as (-> & -> & -> & -> & ->). reflexivity. }
  pose proof (cohort_tx_rates_of_counters eventType prevStatus status a)
    as (Ra1 & Ra2 & Ra3).
  pose proof (cohort_tx_rates_of_counters eventType prevStatus status b)
    as (Rb1 & Rb2 & Rb3).
  destruct (proj1 (counters_eq _ _) Hc') as (E1 & E2 & E3 & E4 & E5).
  apply cohort_eq.
  - rewrite !cohort_tx_period. exact Hp.
  - exact Hc'.
  - rewrite Ra1, Rb1, E1, E3. reflexivity.
  - rewrite Ra2, Rb2, E1, E4. reflexivity.
  - rewrite Ra3, Rb3, E1, E5. reflexivity.
Qed.

(** X14: a transaction keeps the period of the record and reads nothing of
    it but the period and the five counters: the rates stored before are
    overwritten unread. *)
Theorem cohort_tx_reads_counters (eventType : jsval)
    (prevStatus : option string) (status : string) (d : cohort) :
  period (cohort_tx eventType prevStatus status d) = period d /\
  forall r1 r2 r3 : option Q,
    cohort_tx eventType prevStatus status
      (mkCohort (period d) (total_trials d) (in_trial d) (converted d)
         (cancelled d) (billing_issue d) r1 r2 r3)
    = cohort_tx eventType prevStatus status d.
Proof.
  split; [apply cohort_tx_period|].
  intros r1 r2 r3. apply cohort_tx_ext; reflexivity.
Qed.

Lemma clamp_commute (a b c e : bool) (v : Z) :
  (a = true -> 1 <= v) -> (c = true -> 1 <= v) ->
  (a = true -> c = true -> 2 <= v) ->
  (if c
   then Z.max 0 ((if a then Z.max 0 (v - 1) else v) + (if b then 1 else 0) - 1)
   else (if a then Z.max 0 (v - 1) else v) + (if b then 1 else 0))
  + (if e then 1 else 0)
  = (if a
     then Z.max 0 ((if c then Z.max 0 (v - 1) else v) + (if e then 1 else 0) - 1)
     else (if c then Z.max 0 (v - 1) else v) + (if e then 1 else 0))
    + (if b then 1 else 0).
Proof.
  intros Ha Hc Hac.
  destruct a, b, c, e;
    try specialize (Ha eq_refl); try specialize (Hc eq_refl);
    try specialize (Hac eq_refl eq_refl); lia.
Qed.

Lemma status_is_bucket (p : option string) (l : string) (d : cohort) (n : Z) :
  known_status l ->
  (forall s, p = Some s -> known_status s -> n <= bucket s d) ->
  status_is p l = true -> n <= bucket l d.
Proof.
  intros Hk H E. destruct p as [s|]; [|discriminate E].
  apply String.eqb_eq in E. subst. apply H; [reflexivity | exact Hk].
Qed.

Lemma status_is_bucket2 (p q : option string) (l : string) (d : cohort) :
  known_status l ->
  (forall s, p = Some s -> q = Some s -> known_status s -> 2 <= bucket s d) ->
  status_is p l = true -> status_is q l = true -> 2 <= bucket l d.
Proof.
  intros Hk H E1 E2. destruct p as [s|]; [|discriminate E1].
  destruct q as [s'|]; [|discriminate E2].
  apply String.eqb_eq in E1, E2. subst. apply H; auto.
Qed.

(** X15: two transactions commute when neither decrement is clamped in
    either order: the bucket of each known previous status holds at least
    1, and at least 2 when both transactions have the same previous
    status. *)
Theorem cohort_tx_commute (d : cohort) (x y : transition) :
  (forall s, tr_prevStatus x = Some s -> known_status s -> 1 <= bucket s d) ->
  (forall s, tr_prevStatus y = Some s -> known_status s -> 1 <= bucket s d) ->
  (forall s, tr_prevStatus x = Some s -> tr_prevStatus y = Some s ->
             known_status s -> 2 <= bucket s d) ->
  run d [x; y] = run d [y; x].
Proof.
  destruct x as [ex px sx], y as [ey py sy].
  cbn [tr_prevStatus tr_eventType tr_status run fold_left apply_tx].
  intros Hx Hy Hxy.
  pose proof (cohort_tx_rates_of_counters ey py sy (cohort_tx ex px sx d))
    as (Ra1 & Ra2 & Ra3).
  pose proof (cohort_tx_rates_of_counters ex px sx (cohort_tx ey py sy d))
    as (Rb1 & Rb2 & Rb3).
  assert (K1 : known_status "Still in Trial") by (unfold known_status; auto).
  assert (K2 : known_status "Converted") by (unfold known_status; auto).
  assert (K3 : known_status "Cancelled") by (unfold known_status; auto).
  assert (K4 : known_status "Billing Issue") by (unfold known_status; auto).
  assert (Hc : same_counters (cohort_tx ey py sy (cohort_tx ex px sx d))
                 (cohort_tx ex px sx (cohort_tx ey py sy d))).
  { destruct (counters_inv _ _ _ _ _ _ (counters_cohort_tx ex px sx d))
      as (X1 & X2 & X3 & X4 & X5).
    destruct (counters_inv _ _ _ _ _ _ (counters_cohort_tx ey py sy d))
      as (Y1 & Y2 & Y3 & Y4 & Y5).
    destruct (counters_inv _ _ _ _ _ _
                (counters_cohort_tx ey py sy (cohort_tx ex px sx d)))
      as (A1 & A2 & A3 & A4 & A5).
    destruct (counters_inv _ _ _ _ _ _
                (counters_cohort_tx ex px sx (cohort_tx ey py sy d)))
      as (B1 & B2 & B3 & B4 & B5).
    unfold same_counters.
    rewrite A1, A2, A3, A4, A5, B1, B2, B3, B4, B5.
    rewrite X1, X2, X3, X4, X5, Y1, Y2, Y3, Y4, Y5.
    split; [lia|].
    split; [|split; [|split]]; apply clamp_commute.
    - exact (status_is_bucket px _ d 1 K1 Hx).
    - exact (status_is_bucket py _ d 1 K1 Hy).
    - exact (status_is_bucket2 px py _ d K1 Hxy).
    - exact (status_is_bucket px _ d 1 K2 Hx).
    - exact (status_is_bucket py _ d 1 K2 Hy).
    - exact (status_is_bucket2 px py _ d K2 Hxy).
    - exact (status_is_bucket px _ d 1 K3 Hx).
    - exact (status_is_bucket py _ d 1 K3 Hy).
    - exact (status_is_bucket2 px py _ d K3 Hxy).
    - exact (status_is_bucket px _ d 1 K4 Hx).
    - exact (status_is_bucket py _ d 1 K4 Hy).
    - exact (status_is_bucket2 px py _ d K4 Hxy). }
  destruct Hc as (E1 & E2 & E3 & E4 & E5).
  assert (Hp : period (cohort_tx ey py sy (cohort_tx ex px sx d))
               = period (cohort_tx ex px sx (cohort_tx ey py sy d)))
    by (rewrite !cohort_tx_period; reflexivity).
  assert (Hcnt : counters (cohort_tx ey py sy (cohort_tx ex px sx d))
                 = counters (cohort_tx ex px sx (cohort_tx ey py sy d)))
    by (apply counters_eq; repeat split; assumption).
  rewrite E1, E3 in Ra1. rewrite E1, E4 in Ra2. rewrite E1, E5 in Ra3.
  rewrite <- Rb1 in Ra1. rewrite <- Rb2 in Ra2. rewrite <- Rb3 in Ra3.
  exact (cohort_eq _ _ Hp Hcnt Ra1 Ra2 Ra3).
Qed.

Lemma cohort_tx_commute_witness :
  let d := run (zero_cohort "2023-11-14")
             [ mkTransition (JStr "INITIAL_PURCHASE") None "Still in Trial";
               mkTransition (JStr "INITIAL_PURCHASE") None "Still in Trial" ] in
  let x := mkTransition (JStr "RENEWAL") (Some "Still in Trial") "Converted" in
  let y := mkTransition (JStr "EXPIRATION") (Some "Still in Trial") "Cancelled" in
  run d [x; y] = run d [y; x].
Proof.
  intros d x y. apply (cohort_tx_commute d x y).
  - intros s [= <-] _. vm_compute. discriminate.
  - intros s [= <-] _. vm_compute. discriminate.
  - intros s [= <-] _ _. vm_compute. discriminate.
Defined.

Lemma Math_round_inject_Z (k : Z) (x : Q) :
  (x == inject_Z k)%Q -> Math_round x = k.
Proof.
  intros E. unfold Math_round.
  rewrite (Qfloor_comp _ (inject_Z k + (1 # 2))%Q) by (rewrite E; reflexivity).
  unfold Qfloor, Qplus, inject_Z. cbn [Qnum Qden].
  Z.div_mod_to_equations. lia.
Qed.

Lemma round4_exact (b t : Z) :
  1 <= t -> (10000 * b) mod t = 0 ->
  (round4 b t == inject_Z b / inject_Z t)%Q.
Proof.
  intros Ht Hm.
  assert (Hk : 10000 * b = t * (10000 * b / t))
    by (Z.div_mod_to_equations; lia).
  set (k := 10000 * b / t) in *.
  assert (Hq : (inject_Z b / inject_Z t * inject_Z 10000 == inject_Z k)%Q).
  { destruct t as [|p|p]; try lia.
    unfold Qeq, Qdiv, Qmult, Qinv, inject_Z. cbn [Qnum Qden].
    rewrite !Z.mul_1_r, Pos.mul_1_l, Pos.mul_1_r. cbn [Z.mul]. lia. }
  unfold round4. rewrite (Math_round_inject_Z k _ Hq).
  destruct t as [|p|p]; try lia.
  unfold Qeq, Qdiv, Qmult, Qinv, inject_Z. cbn [Qnum Qden].
  rewrite !Z.mul_1_r, !Pos.mul_1_l. lia.
Qed.



(** X28: for a total of 1 to 300 trials and a bucket from 0 to the total,
    the binary64 evaluation of JavaScript and the exact evaluation round to
    the same number of ten-thousandths: on such records the rates of the
    embedding are the rates the code stores. *)
Theorem round4_binary64_agrees (b t : Z) :
  1 <= t <= 300 -> 0 <= b <= t ->
  Math_round_binary64 (Number_of_Z b / Number_of_Z t * Number_of_Z 10000)%float
  = Some (Math_round (inject_Z b / inject_Z t * inject_Z 10000)).
Proof.
  intros Ht Hb.
  assert (Hall : agrees_up_to t = true).
  { apply (forall_range agrees_up_to 1 300);
      [vm_compute; reflexivity | lia]. }
  unfold agrees_up_to in Hall.
  pose proof (forall_range (fun z => binary64_agrees z t) 0 (t + 1) Hall b
                ltac:(lia)) as H.
  cbv beta in H. unfold binary64_agrees in H.
  destruct (Math_round_binary64 _) as [k|]; [|discriminate H].
  apply Z.eqb_eq in H. congruence.
Qed.

Lemma round4_binary64_agrees_witness :
  Math_round_binary64 (Number_of_Z 1 / Number_of_Z 3 * Number_of_Z 10000)%float
  = Some 3333.
Proof.
  rewrite (round4_binary64_agrees 1 3) by lia. vm_compute. reflexivity.
Defined.

(** ** The handler, further *)

(** The two shapes of a run of the handler: an answer that does not depend
    on the store and leaves it alone, or 200 "ok" with the store updated by
    [update_store]. *)
Lemma webhook_shape (Date_parse : string -> option Z) (secret : string)
    (req : request) :
  (exists r, response_status r <> Some "ok" /\
             In (response_code r) [200; 400; 401; 405; 500] /\
             forall now db,
               webhook Date_parse secret now req db = (r, db, [])) \/
  (exists b slug st,
     method req = "POST" /\ authorized secret req = true /\
     req_body req = Some b /\
     is_str (environment_of (event_of b)) "SANDBOX" = false /\
     truthy (appUserId_of (event_of b)) = true /\
     resolveApp (js_or (f_product_id (event_of b)) (JStr ""))
       (pathSlug_of (path req)) = Normal (Some slug) /\
     classifyFromEvent (f_type (event_of b))
       (js_or (f_cancel_reason (event_of b)) (JStr ""))
       (js_or (f_period_type (event_of b)) (JStr "")) = Some st /\
     forall now db,
       webhook Date_parse secret now req db
       = (Json 200 [("status", "ok"); ("app", slug); ("classification", st)],
          fst (update_store now (f_type (event_of b))
                 (appUserId_of (event_of b))
                 (js_or (f_product_id (event_of b)) (JStr "")) slug st
                 (msToDateKey Date_parse (purchasedAtMs_of (event_of b))) db),
          snd (update_store now (f_type (event_of b))
                 (appUserId_of (event_of b))
                 (js_or (f_product_id (event_of b)) (JStr "")) slug st
                 (msToDateKey Date_parse (purchasedAtMs_of (event_of b))) db))).
Proof.
  assert (Hs : forall reason, response_status (skipped reason) <> Some "ok")
    by (intros reason; cbn; discriminate).
  assert (Hf : forall m, response_status (failure m) <> Some "ok")
    by (intros m; cbn; discriminate).
  assert (C200 : forall x : Z, x = 200 -> In x [200; 400; 401; 405; 500])
    by (intros x ->; cbn; auto).
  unfold webhook.
  destruct (String.eqb_spec (method req) "POST") as [Em|Em]; cbn [negb];
    [|left; eexists; split; [|split; [|reflexivity]];
      [cbn; discriminate | cbn; auto]].
  destruct (authorized secret req) eqn:Ea; cbn [negb];
    [|left; eexists; split; [|split; [|reflexivity]];
      [cbn; discriminate | cbn; auto]].
  destruct (req_body req) as [b|];
    [|left; eexists; split; [|split; [|reflexivity]]; [apply Hf | cbn; auto 6]].
  unfold handle_event.
  destruct (is_str (environment_of (event_of b)) "SANDBOX") eqn:Ee;
    [left; eexists; split; [|split; [|reflexivity]]; [apply Hs | cbn; auto]|].
  destruct (truthy (appUserId_of (event_of b))) eqn:Eu; cbn [negb];
    [|left; eexists; split; [|split; [|reflexivity]];
      [cbn; discriminate | cbn; auto]].
  destruct (resolveApp _ _) as [[slug|]|m] eqn:Er;
    [|left; eexists; split; [|split; [|reflexivity]]; [apply Hs | cbn; auto]
     |left; eexists; split; [|split; [|reflexivity]]; [apply Hf | cbn; auto 6]].
  destruct (truthy_str (Some slug)) eqn:Et; cbn [negb];
    [|left; eexists; split; [|split; [|reflexivity]]; [apply Hs | cbn; auto]].
  destruct (classifyFromEvent _ _ _) as [st|] eqn:Ec;
    [|left; eexists; split; [|split; [|reflexivity]]; [apply Hs | cbn; auto]].
  rewrite (is_known_truthy st (classify_known _ _ _ _ Ec)). cbn [negb].
  right. exists b, slug, st. repeat split; try assumption.
  intros now db. destruct (update_store _ _ _ _ _ _ _ _). reflexivity.
Qed.



(** X18: a request that is not a POST is answered 405 before anything else
    is looked at; with a secret configured, a POST whose authorization
    header is not exactly "Bearer " followed by the secret is answered 401;
    neither touches the store.  With no secret configured every request
    passes the authorization test. *)
Theorem webhook_rejects (Date_parse : string -> option Z) (secret : string)
    (now : Z) (req : request) (db : store) :
  (method req <> "POST" ->
   webhook Date_parse secret now req db = (Send 405 "Method not allowed", db, [])) /\
  (method req = "POST" -> secret <> "" ->
   authorization req <> Some ("Bearer " ++ secret)%string ->
   webhook Date_parse secret now req db = (Send 401 "Unauthorized", db, [])) /\
  (secret = "" -> authorized secret req = true) /\
  (authorization req = Some ("Bearer " ++ secret)%string ->
   authorized secret req = true).
Proof.
  unfold webhook, authorized, or_str. repeat split.
  - intros H. destruct (String.eqb_spec (method req) "POST"); [contradiction|].
    reflexivity.
  - intros -> Hs Ha. cbn [String.eqb negb].
    change (String.eqb "POST" "POST") with true. cbn [negb].
    destruct (String.eqb_spec secret ""); [contradiction|]. cbn [negb].
    destruct (authorization req) as [a|]; cbn [truthy_str].
    + destruct (String.eqb_spec a ""); cbn [negb].
      * reflexivity.
      * destruct (String.eqb_spec a ("Bearer " ++ secret)); [congruence|].
        reflexivity.
    + reflexivity.
  - intros ->. reflexivity.
  - intros ->. destruct (String.eqb secret ""); cbn [negb]; [reflexivity|].
    cbn [truthy_str]. change ("Bearer " ++ secret)%string
      with (String "B" ("earer " ++ secret)).
    cbn [String.eqb negb]. apply String.eqb_refl.
Qed.

Lemma webhook_rejects_witness :
  webhook (fun _ => None) "s3cret" 0
    (mkRequest "POST" (Some "Bearer wrong") "/" None) empty_store
  = (Send 401 "Unauthorized", empty_store, []).
Proof.
  apply (webhook_rejects (fun _ => None) "s3cret" 0
           (mkRequest "POST" (Some "Bearer wrong") "/" None) empty_store);
    [reflexivity | discriminate | discriminate].
Defined.

(** X19: an event whose type is not one of the six recognised strings never
    makes the handler write, whatever else the request holds. *)
Theorem webhook_unrecognised_event (Date_parse : string -> option Z)
    (secret : string) (now : Z) (req : request) (b : body) (db : store) :
  req_body req = Some b ->
  ~ In (f_type (event_of b))
      (map JStr [ "INITIAL_PURCHASE"; "RENEWAL"; "CANCELLATION";
                  "BILLING_ISSUE"; "EXPIRATION"; "UNCANCELLATION" ]) ->
  let '(r, db', ws) := webhook Date_parse secret now req db in
  db' = db /\ ws = [] /\ response_status r <> Some "ok".
Proof.
  intros Hb Hn.
  destruct (webhook_shape Date_parse secret req)
    as [(r & Hr & _ & H) | (b' & slug & st & _ & _ & Hb' & _ & _ & _ & Hc & _)].
  - rewrite H. auto.
  - exfalso. rewrite Hb in Hb'. injection Hb' as <-.
    unfold classifyFromEvent in Hc. cbn [map In] in Hn.
    repeat match type of Hc with
    | context [is_str ?v ?l] =>
        let E := fresh "E" in
        destruct (is_str v l) eqn:E;
        [apply is_str_true in E; apply Hn; rewrite E; tauto|]
    end.
    discriminate Hc.
Qed.

Lemma webhook_unrecognised_event_witness :
  let ev := mkFields (JStr "TRANSFER") (JStr "u1") JUndefined
              (JStr "com.tangentapps.girlwalk") JUndefined JUndefined
              (JNum 1700000000000) JUndefined in
  let req := mkRequest "POST" None "/" (Some (mkBody (Some ev) no_fields)) in
  snd (webhook (fun _ => None) "" 0 req empty_store) = [].
Proof.
  intros ev req.
  pose proof (webhook_unrecognised_event (fun _ => None) "" 0 req
                (mkBody (Some ev) no_fields) empty_store eq_refl) as H.
  destruct (webhook (fun _ => None) "" 0 req empty_store) as [[r db'] ws].
  apply H. cbn. intros [E | [E | [E | [E | [E | [E | []]]]]]]; discriminate E.
Defined.

(** The trial start date [update_store] settles on is a date key or null,
    never the empty string. *)
Lemma trial_start_date_not_empty (Date_parse : string -> option Z)
    (ms : jsval) (o : option user) :
  match o with
  | Some u => or_str (trial_start_date u) (msToDateKey Date_parse ms)
  | None => msToDateKey Date_parse ms
  end <> Some "".
Proof.
  destruct o as [u|]; [apply or_str_not_empty|]; apply msToDateKey_not_empty.
Qed.

Lemma truthy_str_some (d : string) : d <> "" -> truthy_str (Some d) = true.
Proof. intros H. cbn. destruct (String.eqb_spec d ""); [contradiction | reflexivity]. Qed.






Lemma cohort_tx_same_status (eventType : jsval) (status : string) (e : cohort) :
  known_status status -> 1 <= bucket status e ->
  same_counters (cohort_tx eventType (Some status) status e) e.
Proof.
  intros Hk Hb. unfold same_counters.
  tx_counters eventType (Some status) status e.
  destruct Hk as [-> | [-> | [-> | ->]]]; status_cases; lia.
Qed.

Lemma cohort_tx_bucket_pos (eventType : jsval) (prevStatus : option string)
    (status : string) (d : cohort) :
  known_status status -> buckets_nonneg d ->
  1 <= bucket status (cohort_tx eventType prevStatus status d).
Proof.
  intros Hk Hn.
  pose proof (cohort_tx_nonneg eventType prevStatus status d Hn) as (? & ? & ? & ?).
  tx_counters eventType prevStatus status d. unfold buckets_nonneg in Hn.
  destruct Hk as [-> | [-> | [-> | ->]]]; destruct prevStatus;
    status_cases; lia.
Qed.

(** The transaction of a repeated event writes back the record it reads. *)
Lemma cohort_tx_repeat (eventType : jsval) (prevStatus : option string)
    (status : string) (d : cohort) :
  known_status status -> buckets_nonneg d ->
  cohort_tx eventType (Some status) status
    (cohort_tx eventType prevStatus status d)
  = cohort_tx eventType prevStatus status d.
Proof.
  intros Hk Hn.
  pose proof (cohort_tx_same_status eventType status _ Hk
                (cohort_tx_bucket_pos eventType prevStatus status d Hk Hn))
    as Hc.
  destruct (cohort_tx_rates_of_counters eventType (Some status) status
              (cohort_tx eventType prevStatus status d)) as (Ra1 & Ra2 & Ra3).
  destruct (cohort_tx_rates_of_counters eventType prevStatus status d)
    as (Rb1 & Rb2 & Rb3).
  pose proof (cohort_tx_period eventType (Some status) status
                (cohort_tx eventType prevStatus status d)) as Hp.
  pose proof (proj2 (counters_eq _ _) Hc) as Hcnt.
  destruct Hc as (E1 & E2 & E3 & E4 & E5).
  rewrite E1, E3 in Ra1. rewrite E1, E4 in Ra2. rewrite E1, E5 in Ra3.
  rewrite <- Rb1 in Ra1. rewrite <- Rb2 in Ra2. rewrite <- Rb3 in Ra3.
  exact (cohort_eq _ _ Hp Hcnt Ra1 Ra2 Ra3).
Qed.

Lemma or_str_again (a b : option string) : or_str (or_str a b) b = or_str a b.
Proof.
  unfold or_str. destruct (truthy_str a) eqn:Ea; [rewrite Ea; reflexivity|].
  destruct (truthy_str b); reflexivity.
Qed.

Lemma or_str_self (b : option string) : or_str b b = b.
Proof. unfold or_str. destruct (truthy_str b); reflexivity. Qed.

Lemma update_store_again (now : Z) (eventType appUserId productId : jsval)
    (appSlug newStatus : string) (trialDate : option string) (db : store) :
  known_status newStatus ->
  (forall ref c, cohorts db !! ref = Some c -> buckets_nonneg c) ->
  update_store now eventType appUserId productId appSlug newStatus trialDate
    (fst (update_store now eventType appUserId productId appSlug newStatus
            trialDate db))
  = update_store now eventType appUserId productId appSlug newStatus
      trialDate db.
Proof.
  intros Hk Hn. unfold update_store. cbv zeta.
  set (uref := ("apps/" ++ appSlug ++ "/users/" ++ ToString appUserId)%string).
  set (tsd := match users db !! uref with
              | Some u => or_str (trial_start_date u) trialDate
              | None => trialDate
              end).
  assert (Ht : or_str tsd trialDate = tsd).
  { subst tsd. destruct (users db !! uref);
      [apply or_str_again | apply or_str_self]. }
  set (udoc := mkUser newStatus productId tsd eventType now).
  assert (Hu : forall m : gmap string cohort,
            users (mkStore (<[uref := udoc]> (users db)) m) !! uref = Some udoc)
    by (intros m; apply lookup_insert_eq).
  destruct tsd as [d|] eqn:Etsd.
  - destruct (truthy_str (Some d)) eqn:Etd; cbn [fst users cohorts].
    + rewrite lookup_insert_eq. cbn [option_map status trial_start_date udoc].
      subst udoc. cbn [trial_start_date status]. rewrite Ht, Etd.
      rewrite !lookup_insert_eq, !insert_insert_eq.
      rewrite cohort_tx_repeat; [reflexivity | exact Hk |].
      destruct (cohorts db !! _) as [c|] eqn:Ec;
        [exact (Hn _ _ Ec) | apply zero_cohort_nonneg].
    + rewrite lookup_insert_eq. subst udoc. cbn [trial_start_date status].
      rewrite Ht, Etd, insert_insert_eq. reflexivity.
  - cbn [fst users cohorts]. rewrite lookup_insert_eq. subst udoc.
    cbn [trial_start_date status]. rewrite Ht, insert_insert_eq. reflexivity.
Qed.

(** The store a second [update_store], at another time, leaves: that of
    the first with the time of the user document replaced. *)
Lemma update_store_again_store (now now2 : Z)
    (eventType appUserId productId : jsval) (appSlug newStatus : string)
    (trialDate : option string) (db : store) :
  known_status newStatus ->
  (forall ref c, cohorts db !! ref = Some c -> buckets_nonneg c) ->
  let db1 := fst (update_store now eventType appUserId productId appSlug
                    newStatus trialDate db) in
  let uref := ("apps/" ++ appSlug ++ "/users/" ++ ToString appUserId)%string in
  exists u,
    users db1 !! uref = Some u /\
    fst (update_store now2 eventType appUserId productId appSlug newStatus
           trialDate db1)
    = mkStore (<[uref := at_time now2 u]> (users db1)) (cohorts db1).
Proof.
  intros Hk Hn. unfold update_store. cbv zeta.
  set (uref := ("apps/" ++ appSlug ++ "/users/" ++ ToString appUserId)%string).
  set (tsd := match users db !! uref with
              | Some u => or_str (trial_start_date u) trialDate
              | None => trialDate
              end).
  assert (Ht : or_str tsd trialDate = tsd).
  { subst tsd. destruct (users db !! uref);
      [apply or_str_again | apply or_str_self]. }
  exists (mkUser newStatus productId tsd eventType now).
  destruct tsd as [d|] eqn:Etsd.
  - destruct (truthy_str (Some d)) eqn:Etd; cbn [fst users cohorts].
    + rewrite lookup_insert_eq. split; [reflexivity|].
      cbn [trial_start_date status option_map]. rewrite Ht, Etd.
      cbn [fst users cohorts]. rewrite !lookup_insert_eq.
      rewrite cohort_tx_repeat; [| exact Hk |].
      * f_equal. apply insert_insert_eq.
      * destruct (cohorts db !! _) as [c|] eqn:Ec;
          [exact (Hn _ _ Ec) | apply zero_cohort_nonneg].
    + rewrite lookup_insert_eq. split; [reflexivity|].
      cbn [trial_start_date status]. rewrite Ht, Etd. reflexivity.
  - cbn [fst users cohorts]. rewrite lookup_insert_eq. split; [reflexivity|].
    cbn [trial_start_date status]. rewrite Ht. reflexivity.
Qed.



Lemma empty_store_ok : store_ok empty_store.
Proof.
  split; intros ref x H; cbn in H; rewrite lookup_empty in H; discriminate H.
Qed.

Lemma webhook_keeps_store_ok (Date_parse : string -> option Z)
    (secret : string) (now : Z) (req : request) (db : store) :
  store_ok db ->
  store_ok (snd (fst (webhook Date_parse secret now req db))).
Proof.
  intros [Hu Hc].
  destruct (webhook_shape Date_parse secret req)
    as [(r0 & _ & _ & H) | (b & slug & st & _ & _ & _ & _ & _ & _ & Hcl & H)];
    rewrite H; cbn [fst snd]; [split; assumption|].
  pose proof (classify_known _ _ _ _ Hcl) as Hk.
  unfold update_store. cbv zeta.
  set (uref := ("apps/" ++ slug ++ "/users/"
                ++ ToString (appUserId_of (event_of b)))%string).
  pose proof (trial_start_date_not_empty Date_parse
                (purchasedAtMs_of (event_of b)) (users db !! uref)) as Hne.
  set (tsd := match users db !! uref with Some _ => _ | None => _ end) in *.
  assert (Husers : forall ref u,
            <[uref := mkUser st (js_or (f_product_id (event_of b)) (JStr ""))
                        tsd (f_type (event_of b)) now]> (users db) !! ref
            = Some u ->
            known_status (status u) /\ trial_start_date u <> Some "").
  { intros ref u. rewrite lookup_insert. destruct (decide _) as [_|_].
    - intros [= <-]. cbn. auto.
    - apply Hu. }
  destruct tsd as [d|] eqn:Et; [destruct (truthy_str (Some d))|];
    unfold store_ok; cbn [fst users cohorts]; split; try exact Husers;
    try exact Hc.
  intros ref c. rewrite lookup_insert. destruct (decide _) as [<-|_]; [|apply Hc].
  intros [= <-].
  set (cref := ("apps/" ++ slug ++ "/cohorts/" ++ d)%string) in *.
  assert (Hd : cohort_ok (match cohorts db !! cref with
                          | Some c => c
                          | None => zero_cohort d
                          end) /\
               exists slug', cref = ("apps/" ++ slug' ++ "/cohorts/"
                 ++ period (match cohorts db !! cref with
                            | Some c => c
                            | None => zero_cohort d
                            end))%string).
  { destruct (cohorts db !! cref) as [c|] eqn:Ec.
    - destruct (Hc _ _ Ec) as (H1 & _ & H3). auto.
    - split; [split; [apply zero_cohort_nonneg | cbn; lia]|].
      exists slug. reflexivity. }
  destruct Hd as ([Hb Ht] & slug' & Hs).
  split; [split; [apply cohort_tx_nonneg, Hb | apply cohort_tx_total_nonneg, Ht]|].
  split; [apply cohort_tx_rates; assumption|].
  exists slug'. rewrite cohort_tx_period. exact Hs.
Qed.




(** ** The backfill handler *)

Section BackfillFacts.

Variable V : Type.
Variable truthyV : V -> bool.
Variable zeroV : V.

Lemma backfill_step_inv (slug : jsval) (st : loop_state V) (c : cohort_input V)
    (acc : list (string * backfill_doc V)) :
  loop_inv V st acc ->
  loop_inv V (backfill_step V truthyV zeroV slug st c)
    (acc ++ backfill_writes V truthyV zeroV slug [Some c])%list.
Proof.
  intros (Hc & Hf & Hl & Hn). unfold backfill_step, backfill_writes.
  cbn [flat_map]. rewrite app_nil_r.
  destruct (truthy (in_period V c)); cbn [negb].
  - cbv zeta.
    destruct (Z.eqb_spec ((ls_count V st + 1) mod 450) 0) as [E|E];
      unfold loop_inv; cbn [ls_batches ls_batch ls_count].
    + assert (length (ls_batch V st) = 449%nat)
        by (rewrite Hn in E; Z.div_mod_to_equations; lia).
      rewrite concat_app. cbn [concat]. rewrite !app_nil_r, app_assoc, Hc.
      repeat split.
      * apply Forall_app. split; [exact Hf|]. constructor; [|constructor].
        rewrite length_app. cbn. lia.
      * cbn. lia.
      * rewrite length_app. cbn [length]. lia.
    + rewrite app_assoc, Hc. repeat split.
      * exact Hf.
      * rewrite length_app. cbn [length].
        rewrite Hn in E. Z.div_mod_to_equations. lia.
      * rewrite length_app. cbn [length]. lia.
  - rewrite app_nil_r. repeat split; assumption.
Qed.

Lemma backfill_writes_cons (slug : jsval) (o : option (cohort_input V))
    (cs : list (option (cohort_input V))) :
  backfill_writes V truthyV zeroV slug (o :: cs)
  = (backfill_writes V truthyV zeroV slug [o]
     ++ backfill_writes V truthyV zeroV slug cs)%list.
Proof.
  unfold backfill_writes. cbn [flat_map]. rewrite app_nil_r. reflexivity.
Qed.

Lemma backfill_loop_inv (slug : jsval) (cs : list (option (cohort_input V)))
    (st : loop_state V) (acc : list (string * backfill_doc V)) :
  Forall (fun o => o <> None) cs ->
  loop_inv V st acc ->
  exists st',
    backfill_loop V truthyV zeroV slug st cs = Normal st' /\
    loop_inv V st' (acc ++ backfill_writes V truthyV zeroV slug cs)%list.
Proof.
  revert st acc. induction cs as [|o cs IH]; intros st acc Hs Hi.
  - exists st. split; [reflexivity|]. unfold backfill_writes. cbn.
    rewrite app_nil_r. exact Hi.
  - inversion Hs as [|? ? Ho Hs']; subst. destruct o as [c|]; [|contradiction].
    cbn [backfill_loop].
    destruct (IH _ _ Hs' (backfill_step_inv slug st c acc Hi)) as (st' & E & Hi').
    exists st'. split; [exact E|].
    rewrite backfill_writes_cons, app_assoc. exact Hi'.
Qed.

Lemma backfill_loop_null (slug : jsval) (cs : list (option (cohort_input V)))
    (st : loop_state V) :
  In None cs ->
  backfill_loop V truthyV zeroV slug st cs
  = Throw "Cannot read properties of null (reading 'period')".
Proof.
  revert st. induction cs as [|o cs IH]; intros st H; [destruct H|].
  destruct o as [c|]; [|reflexivity].
  cbn [backfill_loop]. apply IH. destruct H as [H|H]; [discriminate H | exact H].
Qed.

Lemma list_null_or_not (cs : list (option (cohort_input V))) :
  In None cs \/ Forall (fun o => o <> None) cs.
Proof.
  induction cs as [|o cs [IH|IH]].
  - right. constructor.
  - left. right. exact IH.
  - destruct o as [c|]; [right | left; left; reflexivity].
    constructor; [discriminate | exact IH].
Qed.


(** X26: an import answered 200 reports as count the number of cohorts with
    a truthy period, and commits one document for each, in the order given,
    to apps/<slug>/cohorts/<period>; the batches it commits hold 450
    writes each, except the last, which holds fewer (none when the count
    is a multiple of 450). *)
Theorem backfill_batches (req : backfill_request V) :
  let '(r, bs) := backfill V truthyV zeroV req in
  backfill_response_code r = 200 ->
  exists b cs front last,
    bf_body V req = Some b /\ bf_cohorts V b = Some cs /\
    let ws := backfill_writes V truthyV zeroV (bf_slug V b) cs in
    r = BJson 200 [("status", JStr "ok");
                   ("count", JNum (Z.of_nat (length ws)))] /\
    bs = (front ++ [last])%list /\
    concat bs = ws /\
    Forall (fun batch => length batch = 450%nat) front /\
    (length last < 450)%nat /\
    length bs = S (length ws / 450).
Proof.
  unfold backfill.
  destruct (String.eqb (bf_method V req) "POST"); cbn [negb];
    [|cbn; discriminate].
  destruct (bf_body V req) as [b|] eqn:Eb; [|cbn; discriminate].
  destruct (bf_cohorts V b) as [cs|] eqn:Ecs; [|cbn; discriminate].
  destruct (negb (truthy (bf_slug V b)) || (Z.of_nat (length cs) =? 0));
    [cbn; discriminate|].
  destruct (negb (APP_SLUGS_has (ToString (bf_slug V b)))); [cbn; discriminate|].
  destruct (list_null_or_not cs) as [Hn|Hn].
  - rewrite (backfill_loop_null _ _ _ Hn). cbn. discriminate.
  - destruct (backfill_loop_inv (bf_slug V b) cs (mkLoopState V [] [] 0) [] Hn)
      as (st & -> & (Hc & Hf & Hl & Hcount)).
    { repeat split; [constructor | cbn; lia]. }
    intros _. cbn [app] in Hc.
    exists b, cs, (ls_batches V st), (ls_batch V st).
    split; [reflexivity|]. split; [exact Ecs|]. cbv zeta.
    assert (Hlen : length (backfill_writes V truthyV zeroV (bf_slug V b) cs)
                   = (450 * length (ls_batches V st)
                      + length (ls_batch V st))%nat).
    { rewrite <- Hc, length_app. f_equal.
      clear -Hf. induction Hf as [|x l Hx _ IH]; [reflexivity|].
      cbn [concat]. rewrite length_app, IH, Hx. cbn [length]. lia. }
    split; [|split; [reflexivity|split; [|split; [exact Hf|split; [exact Hl|]]]]].
    + replace (ls_count V st)
        with (Z.of_nat (length (backfill_writes V truthyV zeroV (bf_slug V b) cs)))
        by (rewrite Hcount, Hlen; lia).
      reflexivity.
    + rewrite concat_app. cbn [concat]. rewrite app_nil_r. exact Hc.
    + rewrite length_app, Hlen. cbn [length].
      rewrite (Nat.mul_comm 450), Nat.div_add_l by lia.
      rewrite (Nat.div_small _ 450) by exact Hl. lia.
Qed.


End BackfillFacts.

(** The witnesses take the counters and rates to be rationals. *)


Lemma backfill_batches_witness :
  let c := mkCohortInput Q (JStr "2023-11-14") 4%Q 1%Q 2%Q 1%Q 0%Q (1 # 2)%Q (1 # 4)%Q 0%Q in
  let req := mkBackfillRequest Q "POST"
               (Some (mkBackfillBody Q (JStr "girlwalk")
                        (Some (repeat (Some c) 451)))) in
  map (@length _) (snd (backfill Q (fun q => negb (Qeq_bool q 0)) 0%Q req))
  = [450; 1]%nat.
Proof.
  intros c req.
  pose proof (backfill_batches Q (fun q => negb (Qeq_bool q 0)) 0%Q req) as H.
  destruct (backfill Q (fun q => negb (Qeq_bool q 0)) 0%Q req) as [r bs] eqn:E.
  assert (Hr : backfill_response_code r = 200).
  { apply (f_equal (fun p => backfill_response_code (fst p))) in E.
    cbn [fst] in E. rewrite <- E. vm_compute. reflexivity. }
  destruct (H Hr) as (b & cs & front & last & _ & _ & _ & _ & _ & _ & _ & _).
  apply (f_equal (fun p => map (@length _) (snd p))) in E.
  cbn [snd] in *. rewrite <- E. vm_compute. reflexivity.
Defined.

